(** * REST session handlers of the delfin storage drivers

    A shallow embedding of
      - [delfin/drivers/hitachi/vsp/rest_handler.py]   (module [Vsp])
      - [delfin/drivers/dell_emc/vplex/rest_handler.py] (module [Vplex])
    together with the properties of the session life cycle: retry on an
    invalid session, 503 fast-fail, logout, device discovery and the
    handling of the cached [Authorization] header.

    The handlers are Python objects whose methods mutate [self] and raise
    exceptions.  They are embedded in a state-and-exception monad over the
    record [Handler]: a method of result type [A] is a function
    [Handler -> Handler * outcome A]; an exception keeps the mutations made
    before it was raised, as in Python. *)

From stdpp Require Import base strings gmap list pretty.
From Stdlib Require Import ZArith Lia Ascii.

Local Open Scope Z_scope.

(** ** Python values and exceptions *)

Module Py.

(** The values a decoded JSON body can hold ([res.json()]); [PNone] is both
    JSON [null] and Python [None].  A [dict] is kept as an association list
    read by its first binding of a key.  Floating-point numbers are left out. *)
#[warnings="-register-all"]
Inductive pyval : Type :=
  | PNone
  | PBool (b : bool)
  | PInt (z : Z)
  | PStr (s : string)
  | PList (l : list pyval)
  | PDict (d : list (string * pyval)).

(** The exceptions of [delfin.exception] that the handlers raise, and the
    built-in ones that the modelled statements can raise.  An exception of
    [delfin.exception] is kept by its class and the argument it is built
    with: [StorageBackendException msg] is [StorageBackendException(msg)],
    with one positional argument, and [StorageBackendException_reason r] is
    [StorageBackendException(reason=r)], with the keyword argument; the
    text that either carries is for [delfin.exception] to decide, which is
    not among the sources. *)
Inductive exn : Type :=
  | InvalidResults (msg : string)
  | InvalidUsernameOrPassword
  | StorageBackendException (msg : string)
  | StorageBackendException_reason (reason : string)
  | BadResponse (msg : string)
  | AttributeError (msg : string)
  | TypeError (msg : string)
  | JSONDecodeError
  | OtherException (msg : string).

Inductive outcome (A : Type) : Type :=
  | Return (a : A)
  | Raise (e : exn).
Arguments Return {A} a.
Arguments Raise {A} e.

(** Truth value of a string ([if s:]). *)
Definition truthy (s : string) : bool :=
  match s with
  | EmptyString => false
  | String _ _ => true
  end.

(** [needle in hay] on strings. *)
Fixpoint contains (needle hay : string) : bool :=
  if String.prefix needle hay then true
  else match hay with
       | EmptyString => false
       | String _ rest => contains needle rest
       end.

(** [d.get(k)] on the bindings of a dict: the value, or [None]. *)
Fixpoint dict_lookup (k : string) (d : list (string * pyval)) : pyval :=
  match d with
  | [] => PNone
  | (k', v) :: rest => if String.eqb k k' then v else dict_lookup k rest
  end.

(** [v.get(k)]: only a dict has the method. *)
Definition py_get (k : string) (v : pyval) : outcome pyval :=
  match v with
  | PDict d => Return (dict_lookup k d)
  | _ => Raise (AttributeError "get")
  end.

Fixpoint chars (s : string) : list pyval :=
  match s with
  | EmptyString => []
  | String c rest => PStr (String c EmptyString) :: chars rest
  end.

(** [for x in v]: the elements of a list, the characters of a string, the
    keys of a dict; the other values are not iterable. *)
Definition py_iter (v : pyval) : outcome (list pyval) :=
  match v with
  | PList l => Return l
  | PStr s => Return (chars s)
  | PDict d => Return (map (λ kv, PStr (fst kv)) d)
  | _ => Raise (TypeError "object is not iterable")
  end.

(** [v == s] for a string [s]. *)
Definition py_eq_str (v : pyval) (s : string) : bool :=
  match v with
  | PStr s' => String.eqb s' s
  | _ => false
  end.

(** [v in t] for a tuple [t] of strings. *)
Definition py_in_strs (v : pyval) (t : list string) : bool :=
  match v with
  | PStr s => existsb (String.eqb s) t
  | _ => false
  end.

(** [v is None]. *)
Definition is_none (v : pyval) : bool :=
  match v with
  | PNone => true
  | _ => false
  end.

(** [str(v)], as an f-string formats a value.  The rendering of a list or
    dict is the argument [repr_container]. *)
Definition py_str (repr_container : pyval → string) (v : pyval) : string :=
  match v with
  | PNone => "None"
  | PBool true => "True"
  | PBool false => "False"
  | PInt z => pretty z
  | PStr s => s
  | PList _ | PDict _ => repr_container v
  end.

End Py.
Export Py.

(** ** The REST client base class *)

Module Rest.

(** A [requests.Session]: its default headers and its [auth] attribute
    (user name and password of HTTP basic authentication). *)
Record Session : Type := mkSession {
  headers : gmap string string;
  auth : option (string * string)
}.

(** A [requests.Response]: [res.status_code], [res.text] and the value of
    [res.json()], absent when the body is not JSON. *)
Record Response : Type := mkResponse {
  status_code : Z;
  text : string;
  json_body : option pyval
}.

Definition json (res : Response) : outcome pyval :=
  match json_body res with
  | Some v => Return v
  | None => Raise JSONDecodeError
  end.

(** What the transport is handed for one request: the arguments of
    [do_call] and the session as it is at that moment, with the headers
    that go out. *)
Record Request : Type := mkRequest {
  rq_url : string;
  rq_data : pyval;
  rq_method : string;
  rq_timeout : Z;
  rq_session : option Session
}.

(** Observable events of a run, oldest first: a request handed to the
    transport, an entry into [get_token], a [LOG.error] record (kept by its
    message template). *)
Inductive Event : Type :=
  | EvSend (rq : Request)
  | EvGetToken
  | EvLog (template : string).

(** The attributes of a handler object, and the events so far. *)
Record Handler : Type := mkHandler {
  session : option Session;
  session_id : option string;
  storage_device_id : pyval;
  device_model : pyval;
  serial_number : pyval;
  san_address : string;
  rest_host : string;
  rest_username : string;
  rest_password : string;
  trace : list Event
}.

Definition set_session (x : option Session) (h : Handler) : Handler :=
  mkHandler x (session_id h) (storage_device_id h) (device_model h)
    (serial_number h) (san_address h) (rest_host h) (rest_username h)
    (rest_password h) (trace h).

Definition set_session_id (x : option string) (h : Handler) : Handler :=
  mkHandler (session h) x (storage_device_id h) (device_model h)
    (serial_number h) (san_address h) (rest_host h) (rest_username h)
    (rest_password h) (trace h).

Definition set_identity (id model serial : pyval) (h : Handler) : Handler :=
  mkHandler (session h) (session_id h) id model serial (san_address h)
    (rest_host h) (rest_username h) (rest_password h) (trace h).

Definition set_trace (x : list Event) (h : Handler) : Handler :=
  mkHandler (session h) (session_id h) (storage_device_id h) (device_model h)
    (serial_number h) (san_address h) (rest_host h) (rest_username h)
    (rest_password h) x.

(** The requests among the events, oldest first. *)
Fixpoint sends (tr : list Event) : list Request :=
  match tr with
  | [] => []
  | EvSend rq :: rest => rq :: sends rest
  | _ :: rest => sends rest
  end.

(** The number of entries into [get_token] among the events. *)
Fixpoint token_calls (tr : list Event) : nat :=
  match tr with
  | [] => 0%nat
  | EvGetToken :: rest => S (token_calls rest)
  | _ :: rest => token_calls rest
  end.

(** *** The monad of methods *)

Definition M (A : Type) : Type := Handler → Handler * outcome A.

Definition ret {A} (a : A) : M A := λ h, (h, Return a).

Definition raise {A} (e : exn) : M A := λ h, (h, Raise e).

Definition bind {A B} (m : M A) (k : A → M B) : M B :=
  λ h, match m h with
       | (h', Return a) => k a h'
       | (h', Raise e) => (h', Raise e)
       end.

Declare Scope py_scope.
Delimit Scope py_scope with py.
Notation "x <- m ;; k" := (bind m (λ x, k))
  (at level 100, m at next level, right associativity) : py_scope.
Notation "m ;;; k" := (bind m (λ _, k))
  (at level 100, right associativity) : py_scope.

Definition get : M Handler := λ h, (h, Return h).

Definition modify (f : Handler → Handler) : M unit := λ h, (f h, Return tt).

(** The value of an expression that may raise. *)
Definition lift {A} (o : outcome A) : M A := λ h, (h, o).

Definition emit (ev : Event) : M unit :=
  modify (λ h, set_trace (trace h ++ [ev]) h).

(** [LOG.error(template, ...)]. *)
Definition log_error (template : string) : M unit := emit (EvLog template).

(** [try: body / except Exception as e: LOG.error(template, e); raise e]. *)
Definition try_log {A} (template : string) (body : M A) : M A :=
  λ h, match body h with
       | (h', Raise e) => (set_trace (trace h' ++ [EvLog template]) h', Raise e)
       | r => r
       end.

(** [self.session.headers[key] = value]. *)
Definition set_header (key value : string) : M unit :=
  λ h, match session h with
       | Some s =>
           (set_session (Some (mkSession (<[key := value]> (headers s)) (auth s))) h,
            Return tt)
       | None => (h, Raise (AttributeError "headers"))
       end.

(** [self.session.auth = value]. *)
Definition set_auth (value : option (string * string)) : M unit :=
  λ h, match session h with
       | Some s => (set_session (Some (mkSession (headers s) value)) h, Return tt)
       | None => (h, Raise (AttributeError "auth"))
       end.

(** The collaborators of a handler that are not part of the handler
    modules: the transport behind [RestClient.do_call], the session that
    [RestClient.init_http_head] creates, [delfin.cryptor], the default of
    the [calltimeout] parameter of [do_call], and the rendering of
    containers by [str]. *)
Record Env : Type := mkEnv {
  transport : list Request → Request → outcome Response;
  fresh_session : Session;
  encode : pyval → outcome string;
  decode : string → outcome string;
  default_timeout : Z;
  repr_container : pyval → string
}.

Section Client.
Variable env : Env.

(** Modelled from the spec: [RestClient.do_call] is not among the sources.
    It is the Transport of the specification: one HTTP request for a URL,
    method, headers, body and time-out, answered by a status code and body
    or failing with an exception, never retried.  The answer is a function
    of the request and of the requests made before it. *)
Definition do_call (url : string) (data : pyval) (method : string)
    (calltimeout : Z) : M Response :=
  λ h, let rq := mkRequest url data method calltimeout (session h) in
       (set_trace (trace h ++ [EvSend rq]) h,
        transport env (sends (trace h)) rq).

(** Modelled from the spec: [RestClient.init_http_head] is not among the
    sources.  It gives the handler a new transport handle. *)
Definition init_http_head : M unit :=
  modify (set_session (Some (fresh_session env))).

End Client.

End Rest.
Export Rest.

(** ** The Hitachi VSP handler (token-exchange variant) *)

Module Vsp.

(** The constants of [delfin.drivers.hitachi.vsp.consts] that the handler
    reads; the module is not among the sources. *)
Record Consts : Type := mkConsts {
  ERROR_SESSION_INVALID_CODE : Z;
  ERROR_SESSION_IS_BEING_USED_CODE : Z;
  SUPPORTED_VSP_SERIES : list string;
  SOCKET_TIMEOUT : Z
}.

Definition COMM_URL : string := "/ConfigurationManager/v1/objects/storages".
Definition LOGOUT_URL : string := "/ConfigurationManager/v1/objects/sessions/".
Definition AUTH_KEY : string := "Authorization".

Section Handler.
Variable env : Env.
Variable consts : Consts.

Local Open Scope py_scope.

(** [str(v)], as the f-strings of the handler apply it. *)
Definition str (v : pyval) : string := py_str (repr_container env) v.

(** [res.status_code in [ERROR_SESSION_INVALID_CODE,
    ERROR_SESSION_IS_BEING_USED_CODE]] *)
Definition is_session_error (code : Z) : bool :=
  (code =? ERROR_SESSION_INVALID_CODE consts)
  || (code =? ERROR_SESSION_IS_BEING_USED_CODE consts).

(** [method == 'DELETE' and RestHandler.LOGOUT_URL in url] *)
Definition is_logout_call (method url : string) : bool :=
  String.eqb method "DELETE" && contains LOGOUT_URL url.

Definition call_with_token (url : string) (data : pyval) (method : string)
    (calltimeout : Z) : M Response :=
  h <- get ;;
  auth_key <-
    match session h with
    | Some s =>
        match headers s !! AUTH_KEY with
        | Some a =>
            if truthy a then
              plain <- lift (decode env a) ;;
              set_header AUTH_KEY plain ;;;
              ret (Some a)
            else ret (Some a)
        | None => ret None
        end
    | None => ret None
    end ;;
  res <- do_call env url data method calltimeout ;;
  match auth_key with
  | Some a => if truthy a then set_header AUTH_KEY a else ret tt
  | None => ret tt
  end ;;;
  ret res.

(** The body of [with self.session_lock:] runs as written: in this
    sequential embedding the lock is free when it is taken. *)
Definition get_token : M bool :=
  try_log "Get token error: %s"
    (emit EvGetToken ;;;
     h <- get ;;
     if truthy (san_address h) then
       let url := COMM_URL +:+ "/" +:+ str (storage_device_id h) +:+ "/sessions" in
       let data := PDict [] in
       match session h with
       | None => init_http_head env
       | Some _ => ret tt
       end ;;;
       password <- lift (decode env (rest_password h)) ;;
       set_auth (Some (rest_username h, password)) ;;;
       res <- call_with_token url data "POST" 30 ;;
       if status_code res =? 200 then
         result <- lift (json res) ;;
         sid <- lift (py_get "sessionId" result) ;;
         enc_sid <- lift (encode env sid) ;;
         modify (set_session_id (Some enc_sid)) ;;;
         token <- lift (py_get "token" result) ;;
         let access_session := "Session " +:+ str token in
         enc_auth <- lift (encode env (PStr access_session)) ;;
         set_header AUTH_KEY enc_auth ;;;
         ret true
       else
         log_error "Login error. URL: %(url)s Reason: %(reason)s." ;;;
         if contains "authentication failed" (text res) then
           raise InvalidUsernameOrPassword
         else if contains "KART30005-E" (text res) then
           raise (StorageBackendException (text res))
         else raise (BadResponse (text res))
     else
       log_error "Token Parameter error" ;;;
       ret false).

Definition call (url : string) (data : pyval) (method : string)
    (calltimeout : Z) : M Response :=
  try_log "Get RestHandler.call failed: "
    (res <- call_with_token url data method calltimeout ;;
     if is_session_error (status_code res) then
       log_error "Failed to get token=={0}=={1},get token again" ;;;
       if is_logout_call method url then ret res
       else
         succeed <- get_token ;;
         if succeed : bool then call_with_token url data method calltimeout
         else
           log_error "Login error,get access_session failed" ;;;
           ret res
     else if status_code res =? 503 then raise (InvalidResults (text res))
     else ret res).

(** The first statement of [get_rest_info]:
    [if self.session and url != RestHandler.COMM_URL: ...]. *)
Definition ensure_token (url : string) : M unit :=
  h <- get ;;
  match session h with
  | Some s =>
      if negb (String.eqb url COMM_URL) then
        match headers s !! AUTH_KEY with
        | None => get_token ;;; ret tt
        | Some _ => ret tt
        end
      else ret tt
  | None => ret tt
  end.

Definition get_rest_info (url : string) (timeout : Z) (data : pyval)
    : M pyval :=
  ensure_token url ;;;
  res <- call url data "GET" timeout ;;
  if status_code res =? 200 then lift (json res) else ret PNone.

Definition get_system_info : M pyval := get_rest_info COMM_URL 10 PNone.

(** The three assignments of a matching system. *)
Definition adopt (system : list (string * pyval)) : M unit :=
  modify (set_identity (dict_lookup "storageDeviceId" system)
                       (dict_lookup "model" system)
                       (dict_lookup "serialNumber" system)).

(** [for system in system_info: ...], from the systems still to visit and
    the value of [succeed] so far to the value of [succeed] after the
    loop; [break] is the return without a recursive call.  Every
    [system.get(...)] of an iteration is on the same object, so the
    first of them raises when it is not a dict and none does
    otherwise. *)
Fixpoint scan_systems (systems : list pyval) (succeed : bool) : M bool :=
  match systems with
  | [] => ret succeed
  | system :: rest =>
      h <- get ;;
      match system with
      | PDict d =>
          if py_in_strs (dict_lookup "model" d) (SUPPORTED_VSP_SERIES consts) then
            if py_eq_str (dict_lookup "ctl1Ip" d) (rest_host h)
               || py_eq_str (dict_lookup "ctl2Ip" d) (rest_host h)
            then adopt d ;;; ret true
            else scan_systems rest true
          else if py_eq_str (dict_lookup "svpIp" d) (rest_host h)
          then adopt d ;;; ret true
          else scan_systems rest true
      | _ => raise (AttributeError "get")
      end
  end.

Definition get_device_id : M bool :=
  try_log "Get device id error: %s"
    (h <- get ;;
     match session h with
     | None => init_http_head env
     | Some _ => ret tt
     end ;;;
     storage_systems <- get_system_info ;;
     system_info <- lift (py_get "data" storage_systems) ;;
     systems <- lift (py_iter system_info) ;;
     succeed <- scan_systems systems false ;;
     h' <- get ;;
     (if is_none (storage_device_id h') then
        log_error "Get device id fail,model or something is wrong"
      else ret tt) ;;;
     ret succeed).

Definition login : M bool :=
  try_log "Login error: %s" get_device_id.

(** The handler of the [except] clause builds the exception with the
    keyword argument: [StorageBackendException(reason='Failed to Logout
    from restful')]. *)
Definition logout : M unit :=
  λ h0,
    match
      (h <- get ;;
       match session_id h with
       | Some sid =>
           plain_sid <- lift (decode env sid) ;;
           let url := COMM_URL +:+ "/" +:+ str (storage_device_id h)
                      +:+ "/sessions/" +:+ plain_sid in
           if truthy (san_address h) then
             call url PNone "DELETE" (SOCKET_TIMEOUT consts) ;;;
             modify (set_session_id None) ;;;
             modify (set_identity PNone PNone PNone) ;;;
             modify (set_session None)
           else ret tt
       | None => log_error "logout error:session id not found"
       end) h0
    with
    | (h', Raise err) =>
        (set_trace (trace h' ++ [EvLog "logout error:"]) h',
         Raise (StorageBackendException_reason "Failed to Logout from restful"))
    | r => r
    end.

(** *** The resource getters *)

(** [f'{RestHandler.COMM_URL}/{self.storage_device_id}'], the prefix of
    every resource URL. *)
Definition device_url (h : Handler) : string :=
  COMM_URL +:+ "/" +:+ str (storage_device_id h).

Definition get_firmware_version : M pyval :=
  h <- get ;;
  let url := device_url h in
  result_json <- get_rest_info url (SOCKET_TIMEOUT consts) PNone ;;
  if is_none result_json then ret PNone
  else lift (py_get "dkcMicroVersion" result_json).

Definition get_capacity : M pyval :=
  h <- get ;;
  let url := device_url h +:+ "/total-capacities/instance" in
  get_rest_info url (SOCKET_TIMEOUT consts) PNone.

Definition get_all_pools : M pyval :=
  h <- get ;;
  let url := device_url h +:+ "/pools" in
  get_rest_info url (SOCKET_TIMEOUT consts) PNone.

(** The default of [max_number], [consts.LDEV_NUMBER_OF_PER_REQUEST], is
    the caller's to pass. *)
Definition get_volumes (head_id max_number : pyval) : M pyval :=
  h <- get ;;
  let url := device_url h +:+ "/ldevs?headLdevId=" +:+ str head_id
             +:+ "&count=" +:+ str max_number in
  get_rest_info url (SOCKET_TIMEOUT consts) PNone.

Definition get_controllers : M pyval :=
  h <- get ;;
  let url := device_url h +:+ "/components/instance" in
  get_rest_info url (SOCKET_TIMEOUT consts) PNone.

Definition get_disks : M pyval :=
  h <- get ;;
  let url := device_url h +:+ "/drives" in
  get_rest_info url (SOCKET_TIMEOUT consts) PNone.

Definition get_all_ports : M pyval :=
  h <- get ;;
  let url := device_url h +:+ "/ports" in
  get_rest_info url (SOCKET_TIMEOUT consts) PNone.

Definition get_detail_ports (port_id : pyval) : M pyval :=
  h <- get ;;
  let url := device_url h +:+ "/ports/" +:+ str port_id in
  get_rest_info url (SOCKET_TIMEOUT consts) PNone.

End Handler.

End Vsp.

(** ** The Dell EMC VPLEX handler (header-credential variant) *)

Module Vplex.

Section Handler.
Variable env : Env.
(** [consts.REST_AUTH_URL]; the module is not among the sources. *)
Variable REST_AUTH_URL : string.

Local Open Scope py_scope.

Definition login : M unit :=
  try_log "Login error: %s"
    (let data := PDict [] in
     init_http_head env ;;;
     h <- get ;;
     password <- lift (decode env (rest_password h)) ;;
     set_header "username" (rest_username h) ;;;
     set_header "password" password ;;;
     res <- do_call env REST_AUTH_URL data "GET" (default_timeout env) ;;
     if negb (status_code res =? 200) then
       log_error "Login error. URL: %(url)s Reason: %(reason)s." ;;;
       if contains "User authentication failed" (text res) then
         raise InvalidUsernameOrPassword
       else raise (StorageBackendException (text res))
     else ret tt).

(** "Return dict result of the url response." *)
Definition get_rest_info (url : string) (data : pyval) (method : string)
    : M pyval :=
  res <- do_call env url data method (default_timeout env) ;;
  if status_code res =? 200 then
    body <- lift (json res) ;;
    lift (py_get "response" body)
  else ret PNone.

(** *** The resource getters *)

(** [consts.BASE_CONTEXT]; the module is not among the sources. *)
Variable BASE_CONTEXT : string.

Definition get_virtual_volume_by_name_resp
    (cluster_name virtual_volume_name : string) : M pyval :=
  let url := BASE_CONTEXT +:+ "/clusters/" +:+ cluster_name
             +:+ "/virtual-volumes/" +:+ virtual_volume_name in
  get_rest_info url PNone "GET".

Definition get_virtual_volume_resp (cluster_name : string) : M pyval :=
  let url := BASE_CONTEXT +:+ "/clusters/" +:+ cluster_name
             +:+ "/virtual-volumes" in
  get_rest_info url PNone "GET".

Definition get_cluster_resp : M pyval :=
  let uri := BASE_CONTEXT +:+ "/clusters" in
  get_rest_info uri PNone "GET".

Definition get_devcie_resp (cluster_name : string) : M pyval :=
  let url := BASE_CONTEXT +:+ "/clusters/" +:+ cluster_name +:+ "/devices" in
  get_rest_info url PNone "GET".

Definition get_device_by_name_resp (cluster_name device_name : string)
    : M pyval :=
  let url := BASE_CONTEXT +:+ "/clusters/" +:+ cluster_name
             +:+ "/devices/" +:+ device_name in
  get_rest_info url PNone "GET".

Definition get_health_check_resp : M pyval :=
  let url := BASE_CONTEXT +:+ "/health-check" in
  let data := PDict [("args", PStr "-l")] in
  get_rest_info url data "POST".

Definition get_cluster_by_name_resp (cluster_name : string) : M pyval :=
  let url := BASE_CONTEXT +:+ "/clusters/" +:+ cluster_name in
  get_rest_info url PNone "GET".

Definition get_storage_volume_summary_resp (cluster_name : string)
    : M pyval :=
  let url := BASE_CONTEXT +:+ "/storage-volume+summary" in
  let args := "--clusters " +:+ cluster_name in
  let data := PDict [("args", PStr args)] in
  get_rest_info url data "POST".

Definition get_device_summary_resp (cluster_name : string) : M pyval :=
  let url := BASE_CONTEXT +:+ "/local-device+summary" in
  let args := "--clusters " +:+ cluster_name in
  let data := PDict [("args", PStr args)] in
  get_rest_info url data "POST".

Definition get_virtual_volume_summary_resp (cluster_name : string)
    : M pyval :=
  let url := BASE_CONTEXT +:+ "/virtual-volume+summary" in
  let args := "--clusters " +:+ cluster_name in
  let data := PDict [("args", PStr args)] in
  get_rest_info url data "POST".

Definition get_engine_director_resp : M pyval :=
  let url := BASE_CONTEXT +:+ "/engines/*/directors/*" in
  get_rest_info url PNone "GET".

Definition get_version_verbose : M pyval :=
  let url := BASE_CONTEXT +:+ "/version" in
  let args := "-a --verbose" in
  let data := PDict [("args", PStr args)] in
  get_rest_info url data "POST".

Definition get_cluster_export_port_resp : M pyval :=
  let url := BASE_CONTEXT +:+ "/clusters/*/exports/ports/*" in
  get_rest_info url PNone "GET".

Definition get_engine_director_hardware_port_resp : M pyval :=
  let url := BASE_CONTEXT +:+ "/engines/*/directors/*/hardware/ports/*" in
  get_rest_info url PNone "GET".

End Handler.

End Vplex.

(** ** Vocabulary of the properties *)

Section Vocabulary.
Variable env : Env.
Variable consts : Vsp.Consts.

Import Vsp.

(** The handler as [call] has it when it enters [get_token]: after the
    first response and the record of the session error. *)
Definition noted (h1 : Handler) : Handler :=
  fst (log_error "Failed to get token=={0}=={1},get token again" h1).

(** From [h] to [h'] the events grew by [tok] entries into [get_token]
    and at most [snd] requests. *)
Definition grows (tok snd : nat) (h h' : Handler) : Prop :=
  ∃ evs, trace h' = trace h ++ evs
         ∧ token_calls evs = tok ∧ (length (sends evs) ≤ snd)%nat.

(** The [Authorization] header of the session, when there is one, is a
    value that [cryptor.encode] produced. *)
Definition header_encrypted (h : Handler) : Prop :=
  ∀ s a, session h = Some s → headers s !! AUTH_KEY = Some a →
         ∃ plain, encode env plain = Return a.

(** The test that the loop of [get_device_id] applies to a system: a
    model of the supported series is matched on its controller addresses,
    any other model on its service-processor address. *)
Definition system_matches (host : string) (d : list (string * pyval)) : bool :=
  if py_in_strs (dict_lookup "model" d) (SUPPORTED_VSP_SERIES consts) then
    py_eq_str (dict_lookup "ctl1Ip" d) host
    || py_eq_str (dict_lookup "ctl2Ip" d) host
  else py_eq_str (dict_lookup "svpIp" d) host.

(** A dict that the loop passes over. *)
Definition passed_over (host : string) (v : pyval) : Prop :=
  ∃ d, v = PDict d ∧ system_matches host d = false.

(** The handler as [get_device_id] has it when it asks for the systems:
    with a transport handle. *)
Definition prepared (h : Handler) : Handler :=
  match session h with
  | None => fst (init_http_head env h)
  | Some _ => h
  end.

End Vocabulary.

Section MoreVocabulary.
Variable env : Env.

(** The attributes that only [logout] and the discovery write, and the
    configuration. *)
Definition same_static (h h' : Handler) : Prop :=
  storage_device_id h' = storage_device_id h
  ∧ device_model h' = device_model h
  ∧ serial_number h' = serial_number h
  ∧ san_address h' = san_address h
  ∧ rest_host h' = rest_host h
  ∧ rest_username h' = rest_username h
  ∧ rest_password h' = rest_password h.


(** The handler as [get_token] has it when it sends its POST: the entry
    noted, a transport handle in place, [auth] set to the user name and the
    decoded password. *)
Definition authenticating (h : Handler) (password : string) : Handler :=
  fst ((emit EvGetToken ;;;
        match session h with
        | None => init_http_head env
        | Some _ => ret tt
        end ;;;
        set_auth (Some (rest_username h, password)))%py h).

(** The session that the VPLEX [login] builds: a new transport handle with
    the user name and the decoded password among its headers. *)
Definition credentialed (h : Handler) (password : string) : Session :=
  mkSession (<["password" := password]>
               (<["username" := rest_username h]> (headers (fresh_session env))))
            (auth (fresh_session env)).

(** [m] is one read under [base] by a handler that holds a session: it
    hands the transport one request with the session as it is and changes
    nothing else but the events.  For an answer 200 its outcome is that of
    [res.json().get('response')]: the [response] member when the body is a
    JSON object, [AttributeError] when the body is JSON of another kind,
    the decoding error when the body is not JSON.  For any other answer it
    is [None]; when the transport raises, it is that exception. *)
Definition single_read (base : string) (m : M pyval) : Prop :=
  ∀ h h' r s, session h = Some s → m h = (h', r) →
    ∃ rq, h' = set_trace (trace h ++ [EvSend rq]) h
          ∧ rq_session rq = Some s
          ∧ String.prefix base (rq_url rq) = true
          ∧ r = match transport env (sends (trace h)) rq with
                | Return res =>
                    if status_code res =? 200 then
                      match json res with
                      | Return body => py_get "response" body
                      | Raise e => Raise e
                      end
                    else Return PNone
                | Raise e => Raise e
                end.


(** The device identity is that of the listed system [d]. *)
Definition identity_of (d : list (string * pyval)) (h : Handler) : Prop :=
  storage_device_id h = dict_lookup "storageDeviceId" d
  ∧ device_model h = dict_lookup "model" d
  ∧ serial_number h = dict_lookup "serialNumber" d.

End MoreVocabulary.

(** ** A scripted transport and a concrete handler

    The environment used to run the handlers on concrete inputs: a
    transport that answers the n-th request of a run with the n-th entry of
    a script, and a cryptor that marks a string with a prefix. *)

Module Demo.

Definition not_found : Response := mkResponse 404 "not found" None.

(** Answer request number [length history] from the script; 404 after it. *)
Definition scripted (script : list (outcome Response))
    (history : list Request) (rq : Request) : outcome Response :=
  nth (length history) script (Return not_found).

Definition mark : string := "enc:".

Definition demo_encode (v : pyval) : outcome string :=
  match v with
  | PStr s => Return (mark +:+ s)
  | _ => Raise (AttributeError "encode")
  end.

Fixpoint strip (prefix s : string) : option string :=
  match prefix, s with
  | EmptyString, _ => Some s
  | String a p, String b t => if Ascii.eqb a b then strip p t else None
  | String _ _, EmptyString => None
  end.

Definition demo_decode (s : string) : outcome string :=
  match strip mark s with
  | Some plain => Return plain
  | None => Raise (OtherException "decode")
  end.

Definition demo_env (script : list (outcome Response)) : Env :=
  mkEnv (scripted script)
        (mkSession {[ "Content-Type" := "application/json" ]} None)
        demo_encode demo_decode 30 (λ _, "<container>").

Definition demo_consts : Vsp.Consts :=
  Vsp.mkConsts 403 409 ["VSP G350"; "VSP G370"] 30.

(** A handler that has resolved its device and holds a session. *)
Definition logged_in : Handler :=
  mkHandler
    (Some (mkSession {[ Vsp.AUTH_KEY := "enc:Session tok0" ]} None))
    (Some "enc:sid0") (PStr "800000") (PStr "VSP G350") (PStr "410001")
    "https://10.0.0.1:443" "10.0.0.1" "admin" "enc:secret" [].

(** A handler as the constructor leaves it. *)
Definition created : Handler :=
  mkHandler None None PNone PNone PNone
    "https://10.0.0.1:443" "10.0.0.1" "admin" "enc:secret" [].

Definition session_invalid : Response := mkResponse 403 "session invalid" None.

Definition token_granted : Response :=
  mkResponse 200 "ok"
    (Some (PDict [("sessionId", PStr "sid1"); ("token", PStr "tok1")])).

Definition token_refused : Response := mkResponse 401 "unauthorized" None.

End Demo.

(** ** Scenarios *)

Module Runs.
Import Demo.

Definition found : Response :=
  mkResponse 200 "ok" (Some (PDict [("response", PStr "x")])).

Definition unavailable : Response := mkResponse 503 "service unavailable" None.

(** The session is refused, the token is granted, the retry succeeds. *)
Definition refreshed : Env :=
  demo_env [Return session_invalid; Return token_granted; Return found].

(** The session is refused and so is the request for a token. *)
Definition refused : Env :=
  demo_env [Return session_invalid; Return token_refused].

(** The URL that [logout] builds for the handler [logged_in]. *)
Definition session_url : string :=
  "/ConfigurationManager/v1/objects/storages/800000/sessions/sid0".



Definition system_c : list (string * pyval) :=
  [("storageDeviceId", PStr "C"); ("model", PStr "VSP 5500");
   ("serialNumber", PStr "3"); ("svpIp", PStr "10.0.0.9")].

Definition system_d : list (string * pyval) :=
  [("storageDeviceId", PStr "D"); ("model", PStr "VSP G370");
   ("serialNumber", PStr "4"); ("ctl1Ip", PStr "10.0.0.1")].

Definition discovery (systems : list pyval) : Env :=
  demo_env [Return (mkResponse 200 "ok" (Some (PDict [("data", PList systems)])))].

(** The claims as the specification words them, where the handlers differ. *)




(** "if the re-authentication fails it returns the original failing
    response rather than raising an exception" *)
Definition claimed_original_response (env : Env) (consts : Vsp.Consts)
    (url : string) (data : pyval) (method : string) (t : Z) (h : Handler) : Prop :=
  ∀ h1 res,
    Vsp.call_with_token env url data method t h = (h1, Return res) →
    Vsp.is_session_error consts (status_code res) = true →
    Vsp.is_logout_call method url = false →
    snd (Vsp.get_token env (noted h1)) ≠ Return true →
    snd (Vsp.call env consts url data method t h) = Return res.

(** "returns the parsed JSON body if and only if the response status code
    is 200 ... in both ... variant[s]", for the header-credential one *)
Definition claimed_parsed_body (env : Env) (url : string) (data : pyval)
    (method : string) (h : Handler) : Prop :=
  ∀ h1 res,
    do_call env url data method (default_timeout env) h = (h1, Return res) →
    status_code res = 200 →
    snd (Vplex.get_rest_info env url data method h) = json res.

(** "returns absent (None) for ordinary non-200 responses such as 404
    without raising an exception", for the token-exchange one: with a
    transport that answers every request 404 *)
Definition claimed_absent_on_404 (env : Env) (consts : Vsp.Consts)
    (url : string) (timeout : Z) (data : pyval) (h : Handler) : Prop :=
  (∀ history rq, ∃ res, transport env history rq = Return res
                        ∧ status_code res = 404) →
  snd (Vsp.get_rest_info env consts url timeout data h) = Return PNone.

End Runs.

(** ** Further scenarios *)

Module MoreRuns.
Import Demo Runs.

(** A handler with a transport handle and a resolved device, before any
    token was requested. *)
Definition no_token : Handler :=
  mkHandler
    (Some (mkSession {[ "Content-Type" := "application/json" ]} None))
    None (PStr "800000") (PStr "VSP G350") (PStr "410001")
    "https://10.0.0.1:443" "10.0.0.1" "admin" "enc:secret" [].

(** A handler without a [san_address]. *)
Definition no_address : Handler :=
  mkHandler
    (Some (mkSession {[ "Content-Type" := "application/json" ]} None))
    None (PStr "800000") (PStr "VSP G350") (PStr "410001")
    "" "10.0.0.1" "admin" "enc:secret" [].

Definition wrong_password : Response :=
  mkResponse 401 "KART30005-E: authentication failed" None.

Definition firmware : Response :=
  mkResponse 200 "ok" (Some (PDict [("dkcMicroVersion", PStr "88-08-01")])).

Definition connection_reset : exn := OtherException "connection reset".

Definition vplex_auth_url : string := "/vplex/cluster-contexts".
Definition vplex_base : string := "/vplex".

Definition vplex_denied : Response :=
  mkResponse 401 "User authentication failed" None.

End MoreRuns.

(** ** Properties of the handlers *)

(** *** Events and state updates *)

Lemma sends_app (a b : list Event) : sends (a ++ b) = sends a ++ sends b.
Proof.
  induction a as [|ev a IH]; simpl; [done|].
  destruct ev; simpl; by rewrite IH.
Qed.

Lemma token_calls_app (a b : list Event) :
  token_calls (a ++ b) = (token_calls a + token_calls b)%nat.
Proof.
  induction a as [|ev a IH]; simpl; [done|].
  destruct ev; simpl; by rewrite IH.
Qed.

(** Destruct the scrutinee of a [match] found in a hypothesis or the goal. *)
Ltac case_step :=
  match goal with
  | H : context [match ?x with _ => _ end] |- _ =>
      first [is_var x; destruct x | destruct x eqn:?]
  | |- context [match ?x with _ => _ end] =>
      first [is_var x; destruct x | destruct x eqn:?]
  end.

Ltac pair_inv :=
  repeat match goal with
  | H : (_, _) = (_, _) |- _ => inversion H; subst; clear H
  end.

(** *** Inversion of the monad's combinators *)

Lemma bind_inv {A B} (m : M A) (k : A → M B) h h' r :
  bind m k h = (h', r) →
  (∃ h1 a, m h = (h1, Return a) ∧ k a h1 = (h', r))
  ∨ (∃ e, m h = (h', Raise e) ∧ r = Raise e).
Proof.
  unfold bind. destruct (m h) as [h1 [a|e]]; intros H.
  - left. eauto.
  - right. inversion H; subst. eauto.
Qed.

Lemma bind_return {A B} (m : M A) (k : A → M B) h h1 a :
  m h = (h1, Return a) → bind m k h = k a h1.
Proof. unfold bind. by intros ->. Qed.

Lemma bind_raise {A B} (m : M A) (k : A → M B) h h1 e :
  m h = (h1, Raise e) → bind m k h = (h1, Raise e).
Proof. unfold bind. by intros ->. Qed.

Lemma try_log_inv {A} template (m : M A) h h' r :
  try_log template m h = (h', r) →
  ∃ h1, m h = (h1, r)
        ∧ h' = match r with
               | Return _ => h1
               | Raise _ => set_trace (trace h1 ++ [EvLog template]) h1
               end.
Proof.
  unfold try_log. destruct (m h) as [h1 [a|e]]; intros H;
    inversion H; subst; eauto.
Qed.

(** Invert one [bind] in hypothesis [H]: the first part returned and [H]
    is about the rest, or it raised and the whole raised. *)
Ltac bind_step H :=
  let h1 := fresh "h" in
  let a := fresh "a" in
  let e := fresh "e" in
  let Hm := fresh "Hm" in
  let Hr := fresh "Hr" in
  apply bind_inv in H;
  destruct H as [(h1 & a & Hm & H) | (e & Hm & Hr)]; [|simplify_eq].

(** Unfold the primitive actions in [H] and compute. *)
Ltac prim H :=
  unfold log_error, emit, init_http_head, modify, get, lift, ret, raise,
    set_auth, set_header in H; simpl in H.

(** Run [H : m h = (h', r)] through the binds and primitive actions of [m],
    branching where [m] branches. *)
Ltac mstep :=
  match goal with
  | _ => progress simplify_eq/=
  | H : bind _ _ _ = _ |- _ => bind_step H
  | H : get _ = _ |- _ => prim H
  | H : lift _ _ = _ |- _ => prim H
  | H : ret _ _ = _ |- _ => prim H
  | H : raise _ _ = _ |- _ => prim H
  | H : modify _ _ = _ |- _ => prim H
  | H : log_error _ _ = _ |- _ => prim H
  | H : emit _ _ = _ |- _ => prim H
  | H : init_http_head _ _ = _ |- _ => prim H
  | H : set_auth _ _ = _ |- _ => prim H
  | H : set_header _ _ _ = _ |- _ => prim H
  | H : (if ?b then _ else _) _ = (_, _) |- _ => destruct b eqn:?
  | H : (match ?x with _ => _ end) _ = (_, _) |- _ => destruct x eqn:?
  | H : (match ?x with _ => _ end) = (_, _) |- _ => destruct x eqn:?
  end.

(** Close [∃ evs, tr' = tr ++ evs ∧ ...] when [tr'] is syntactically [tr]
    or [tr] with events appended. *)
Ltac ext_trace :=
  first
    [ exists []; split; [by rewrite app_nil_r|]; simpl; repeat split; (done || lia)
    | eexists; split; [reflexivity|]; simpl; repeat split; (done || lia)
    | eexists; split; [by rewrite <- ?app_assoc|]; simpl; repeat split; (done || lia) ].

Arguments Vsp.call_with_token : simpl never.
Arguments Vsp.get_token : simpl never.
Arguments Vsp.call : simpl never.
Arguments Vsp.ensure_token : simpl never.
Arguments Vsp.get_rest_info : simpl never.
Arguments Vsp.get_system_info : simpl never.

Section VspFacts.
Variable env : Env.
Variable consts : Vsp.Consts.

Import Vsp.

(** A [call_with_token] that returns has handed one request to the
    transport and has left every attribute of the handler, the session
    and its headers included, as it found it.  The request carried the
    decoding of the cached [Authorization] value, when there was a
    non-empty one. *)
Lemma call_with_token_return url data method t h h' res :
  call_with_token env url data method t h = (h', Return res) →
  ∃ rq, h' = set_trace (trace h ++ [EvSend rq]) h
        ∧ transport env (sends (trace h)) rq = Return res
        ∧ rq_url rq = url ∧ rq_data rq = data
        ∧ rq_method rq = method ∧ rq_timeout rq = t
        ∧ ∀ s a, session h = Some s →
                 headers s !! AUTH_KEY = Some a → truthy a = true →
                 ∃ plain, decode env a = Return plain
                          ∧ rq_session rq
                            = Some (mkSession (<[AUTH_KEY := plain]> (headers s))
                                              (auth s)).
Proof.
  unfold call_with_token, bind, get, lift, ret, do_call, set_header.
  intros H. destruct h as [ses sid dev model ser san host user pw tr].
  simpl in H.
  destruct ses as [[hdrs au]|]; simpl in H.
  - destruct (hdrs !! AUTH_KEY) as [a|] eqn:Ha; simpl in H.
    + destruct (truthy a) eqn:Ht; simpl in H.
      * destruct (decode env a) as [plain|e] eqn:Hd; simpl in H; [|done].
        destruct (transport env _ _) as [r|e] eqn:Htr; simpl in H; [|done].
        rewrite Ht in H. simpl in H. pair_inv.
        eexists. split; [|split; [exact Htr|]].
        { unfold set_session, set_trace; simpl.
          rewrite insert_insert_eq, (insert_id _ _ _ Ha). done. }
        repeat split. intros s a' ? ? ?. simplify_eq/=. eauto.
      * destruct (transport env _ _) as [r|e] eqn:Htr; simpl in H; [|done].
        rewrite Ht in H. simpl in H. pair_inv.
        eexists. split; [|split; [exact Htr|]]; [done|].
        repeat split. intros s a' ? ? ?. simplify_eq/=. congruence.
    + destruct (transport env _ _) as [r|e] eqn:Htr; simpl in H; [|done].
      pair_inv. eexists. split; [|split; [exact Htr|]]; [done|].
      repeat split. intros s a' ? ? ?. simplify_eq/=.
  - destruct (transport env _ _) as [r|e] eqn:Htr; simpl in H; [|done].
    pair_inv. eexists. split; [|split; [exact Htr|]]; [done|].
    repeat split. intros s a' ? ? ?. simplify_eq/=.
Qed.

Lemma grows_counts tok snd h h' :
  grows tok snd h h' →
  token_calls (trace h') = (token_calls (trace h) + tok)%nat
  ∧ (length (sends (trace h)) ≤ length (sends (trace h'))
     ≤ length (sends (trace h)) + snd)%nat.
Proof.
  intros (e & -> & <- & S).
  rewrite token_calls_app, sends_app, length_app. lia.
Qed.

(** Whatever its outcome, [call_with_token] hands at most one request to
    the transport and does not enter [get_token]. *)
Lemma call_with_token_frame url data method t h h' r :
  call_with_token env url data method t h = (h', r) → grows 0 1 h h'.
Proof.
  unfold call_with_token, bind, get, lift, ret, do_call, set_header, grows.
  intros H. destruct h as [ses sid dev model ser san host user pw tr].
  simpl in H.
  repeat (case_step; simpl in *; try done); pair_inv; simpl; ext_trace.
Qed.

(** Bound the growth of the events from the [call_with_token] facts among
    the hypotheses. *)
Ltac solve_grows :=
  repeat match goal with
  | H : call_with_token _ _ _ _ _ _ = _ |- _ =>
      apply call_with_token_frame in H; destruct H as (? & ? & ? & ?)
  end;
  unfold grows; simpl in *;
  repeat match goal with H : trace _ = _ |- _ => rewrite H; clear H end;
  eexists; split; [rewrite <- ?app_assoc; reflexivity|];
  simpl; rewrite ?token_calls_app, ?sends_app, ?length_app; simpl; split; lia.

(** Whatever its outcome, [get_token] is one entry into [get_token] and at
    most one request. *)
Lemma get_token_frame h h' g :
  get_token env h = (h', g) → grows 1 1 h h'.
Proof.
  unfold get_token. intros H.
  apply try_log_inv in H as (h1 & H & ->).
  assert (grows 1 1 h h1) as G by (repeat mstep; solve_grows).
  destruct g; [done|].
  destruct G as (evs & Htr & ? & ?). unfold grows; simpl. rewrite Htr.
  eexists; split; [rewrite <- app_assoc; reflexivity|].
  rewrite token_calls_app, sends_app, length_app; simpl. split; lia.
Qed.

(** [get_token] returns [False] only without a [san_address], and then it
    has sent nothing and changed nothing but the log. *)
Lemma get_token_false h h' :
  get_token env h = (h', Return false) →
  truthy (san_address h) = false
  ∧ h' = set_trace (trace h ++ [EvGetToken; EvLog "Token Parameter error"]) h.
Proof.
  unfold get_token. intros H.
  apply try_log_inv in H as (h1 & H & ->).
  repeat mstep. split; [done|].
  destruct h; unfold set_trace; simpl. by rewrite <- app_assoc.
Qed.

(** [get_token] returns [True] only after it has stored the encoded
    session id and the encoded [Session <token>] header. *)
Lemma get_token_true h h' :
  get_token env h = (h', Return true) →
  ∃ res body sid enc_sid token enc_auth s',
    status_code res = 200 ∧ json res = Return body
    ∧ py_get "sessionId" body = Return sid
    ∧ encode env sid = Return enc_sid
    ∧ session_id h' = Some enc_sid
    ∧ py_get "token" body = Return token
    ∧ encode env (PStr ("Session " +:+ str env token)) = Return enc_auth
    ∧ session h' = Some s'
    ∧ headers s' !! AUTH_KEY = Some enc_auth.
Proof.
  unfold get_token. intros H.
  apply try_log_inv in H as (h1 & H & ->).
  repeat mstep.
  all: match goal with
       | Hj : json ?res = Return ?body,
         Hsid : py_get "sessionId" ?body = Return ?sid,
         He : encode env ?sid = Return ?es,
         Ht : py_get "token" ?body = Return ?tok,
         Ha : encode env (PStr (_ +:+ str env ?tok)) = Return ?ea |- _ =>
           exists res, body, sid, es, tok, ea
       end.
  all: eexists; repeat split; try done; try lia.
  all: simpl; by rewrite lookup_insert_eq.
Qed.

(** *** The session-error path of [call] *)

(** C1 (amended). When the first response of [call] carries a
    session-invalid or session-in-use code and the request is not a logout
    call, [call] enters [get_token] exactly once and hands at most three
    requests to the transport (the original one, at most one by
    [get_token], at most one retry).  If [get_token] returns true, the
    outcome of [call] is the outcome of one retry of the original request;
    if it returns false, [call] returns the original failing response and
    retries nothing; if it raises, [call] raises the same exception and
    retries nothing. *)
Theorem call_session_error_reauth_once url data method t h h1 res h2 g h' r :
  call_with_token env url data method t h = (h1, Return res) →
  is_session_error consts (status_code res) = true →
  is_logout_call method url = false →
  get_token env (noted h1) = (h2, g) →
  call env consts url data method t h = (h', r) →
  token_calls (trace h') = S (token_calls (trace h))
  ∧ (length (sends (trace h')) ≤ length (sends (trace h)) + 3)%nat
  ∧ match g with
    | Return true =>
        ∃ h3, call_with_token env url data method t h2 = (h3, r)
              ∧ sends (trace h') = sends (trace h3)
              ∧ (length (sends (trace h3)) ≤ S (length (sends (trace h2))))%nat
    | Return false => r = Return res ∧ sends (trace h') = sends (trace h1)
    | Raise e => r = Raise e ∧ sends (trace h') = sends (trace h2)
    end.
Proof.
  intros H1 Herr Hlogout Htok Hcall.
  unfold call in Hcall. apply try_log_inv in Hcall as (h4 & Hcall & ->).
  rewrite (bind_return _ _ _ _ _ H1), Herr in Hcall.
  bind_step Hcall; prim Hm; simplify_eq.
  rewrite Hlogout in Hcall.
  change (set_trace _ h1) with (noted h1) in Hcall.
  pose proof (call_with_token_frame _ _ _ _ _ _ _ H1) as G1.
  pose proof (get_token_frame _ _ _ Htok) as G2.
  assert (grows 0 0 h1 (noted h1)) as G0 by (by eexists).
  apply grows_counts in G1 as [T1 S1], G0 as [T0 S0], G2 as [T2 S2].
  destruct g as [[|]|e].
  - rewrite (bind_return _ _ _ _ _ Htok) in Hcall.
    pose proof (call_with_token_frame _ _ _ _ _ _ _ Hcall) as [T3 S3]%grows_counts.
    assert (sends (trace match r with
                         | Return _ => h4
                         | Raise _ =>
                             set_trace (trace h4 ++ [EvLog "Get RestHandler.call failed: "]) h4
                         end) = sends (trace h4)
            ∧ token_calls (trace match r with
                         | Return _ => h4
                         | Raise _ =>
                             set_trace (trace h4 ++ [EvLog "Get RestHandler.call failed: "]) h4
                         end) = token_calls (trace h4)) as [Es Et].
    { destruct r; simpl; [done|].
      by rewrite sends_app, token_calls_app, app_nil_r, Nat.add_0_r. }
    rewrite Es, Et. repeat split; [lia|lia|].
    exists h4. repeat split; [done|lia].
  - rewrite (bind_return _ _ _ _ _ Htok) in Hcall.
    bind_step Hcall; prim Hm; simplify_eq. prim Hcall; simplify_eq.
    apply get_token_false in Htok as [_ ->]. simpl in *.
    rewrite ?sends_app, ?token_calls_app, ?length_app in *. simpl in *.
    rewrite ?app_nil_r in *.
    repeat split; lia.
  - rewrite (bind_raise _ _ _ _ _ Htok) in Hcall. simplify_eq. simpl.
    rewrite sends_app, token_calls_app, app_nil_r. simpl.
    repeat split; lia.
Qed.

(** *** 503 *)

(** C4. When the first response of [call] has status code 503, which is
    not a session-error code, [call] raises [InvalidResults] with the
    response text, having handed that one request to the transport and
    never entered [get_token]. *)
Theorem call_503_fast_fail url data method t h h1 res :
  call_with_token env url data method t h = (h1, Return res) →
  status_code res = 503 →
  is_session_error consts 503 = false →
  ∃ h', call env consts url data method t h
        = (h', Raise (InvalidResults (text res)))
        ∧ token_calls (trace h') = token_calls (trace h)
        ∧ length (sends (trace h')) = S (length (sends (trace h))).
Proof.
  intros H1 Hst Herr. eexists. split.
  - unfold call, try_log.
    rewrite (bind_return _ _ _ _ _ H1), Hst, Herr. simpl. reflexivity.
  - apply call_with_token_return in H1 as (rq & -> & _). simpl.
    rewrite ?sends_app, ?token_calls_app, ?length_app. simpl.
    rewrite ?app_nil_r, ?length_app. simpl. lia.
Qed.

(** *** The cached [Authorization] header *)

(** C10. When the handler holds a non-empty cached [Authorization] value
    that decodes to [plain] and the transport raises [e] on the request,
    [call_with_token] raises [e] and leaves [plain] in the header slot;
    [call] raises [e] too, with [plain] still in the slot. *)
Theorem call_with_token_raise_leaves_plaintext url data method t h s a plain e :
  session h = Some s →
  headers s !! AUTH_KEY = Some a →
  truthy a = true →
  decode env a = Return plain →
  transport env (sends (trace h))
    (mkRequest url data method t
       (Some (mkSession (<[AUTH_KEY := plain]> (headers s)) (auth s))))
  = Raise e →
  (∃ h' s', call_with_token env url data method t h = (h', Raise e)
            ∧ session h' = Some s'
            ∧ headers s' !! AUTH_KEY = Some plain)
  ∧ (∃ h' s', call env consts url data method t h = (h', Raise e)
              ∧ session h' = Some s'
              ∧ headers s' !! AUTH_KEY = Some plain).
Proof.
  intros Hs Ha Ht Hd He.
  assert (call_with_token env url data method t h
          = (set_trace
               (trace h ++
                [EvSend (mkRequest url data method t
                   (Some (mkSession (<[AUTH_KEY := plain]> (headers s)) (auth s))))])
               (set_session
                  (Some (mkSession (<[AUTH_KEY := plain]> (headers s)) (auth s))) h),
             Raise e)) as Hc.
  { unfold call_with_token, bind, get, lift, ret, do_call, set_header.
    simpl. rewrite Hs, Ha, Ht, Hd. simpl. rewrite Hs. simpl. by rewrite He. }
  split.
  - do 2 eexists. split; [exact Hc|]. simpl. split; [done|].
    simpl. apply lookup_insert_eq.
  - unfold call, try_log. rewrite (bind_raise _ _ _ _ _ Hc).
    do 2 eexists. split; [done|]. simpl. split; [done|].
    simpl. apply lookup_insert_eq.
Qed.

(** C5. The encrypted form of the cached [Authorization] header does not
    survive a request that fails.  Take a handler whose cached header is in
    encrypted form, not empty, and decodes to [plain], a value that
    [cryptor.encode] never produces.  When the transport raises [e] on the
    request, [call] raises [e] and the handler is left with [plain] in the
    header slot: the header is no longer in encrypted form.
    [call_with_token] writes the encrypted value back after [do_call], with
    no [try]/[finally] around it. *)
Theorem call_raise_breaks_header_encrypted url data method t h s a plain e :
  header_encrypted env h →
  session h = Some s →
  headers s !! AUTH_KEY = Some a →
  truthy a = true →
  decode env a = Return plain →
  (∀ v, encode env v ≠ Return plain) →
  transport env (sends (trace h))
    (mkRequest url data method t
       (Some (mkSession (<[AUTH_KEY := plain]> (headers s)) (auth s))))
  = Raise e →
  ∃ h' s', call env consts url data method t h = (h', Raise e)
           ∧ session h' = Some s'
           ∧ headers s' !! AUTH_KEY = Some plain
           ∧ ¬ header_encrypted env h'.
Proof.
  intros _ Hs Ha Ht Hd Hne He.
  assert (call_with_token env url data method t h
          = (set_trace
               (trace h ++
                [EvSend (mkRequest url data method t
                   (Some (mkSession (<[AUTH_KEY := plain]> (headers s)) (auth s))))])
               (set_session
                  (Some (mkSession (<[AUTH_KEY := plain]> (headers s)) (auth s))) h),
             Raise e)) as Hc.
  { unfold call_with_token, bind, get, lift, ret, do_call, set_header.
    simpl. rewrite Hs, Ha, Ht, Hd. simpl. rewrite Hs. simpl. by rewrite He. }
  unfold call, try_log. rewrite (bind_raise _ _ _ _ _ Hc).
  do 2 eexists. split; [done|]. simpl. split; [done|].
  simpl. split; [apply lookup_insert_eq|].
  intros Hinv.
  destruct (Hinv _ plain eq_refl) as [v Hv].
  - simpl. apply lookup_insert_eq.
  - exact (Hne v Hv).
Qed.

(** On the paths that return, the encrypted form is kept.  For a handler
    whose cached [Authorization] header is in encrypted form: (1) after a
    [call] that returns a response the header is in encrypted form; (2) a
    [call_with_token] that returns has handed one request to the
    transport, carrying the decoding of the cached value, and has put the
    session back as it was; (3) a [get_token] that returns true has stored
    the encoded session id and the encoded [Session <token>] header. *)
Theorem call_keeps_header_encrypted h :
  header_encrypted env h →
  (∀ url data method t h' res,
     call env consts url data method t h = (h', Return res) →
     header_encrypted env h')
  ∧ (∀ url data method t h' res,
       call_with_token env url data method t h = (h', Return res) →
       session h' = session h
       ∧ ∃ rq, trace h' = trace h ++ [EvSend rq]
               ∧ ∀ s a, session h = Some s →
                        headers s !! AUTH_KEY = Some a → truthy a = true →
                        ∃ plain, decode env a = Return plain
                                 ∧ rq_session rq
                                   = Some (mkSession (<[AUTH_KEY := plain]> (headers s))
                                                     (auth s)))
  ∧ (∀ h', get_token env h = (h', Return true) →
       ∃ sid enc_sid token enc_auth s',
         encode env sid = Return enc_sid
         ∧ session_id h' = Some enc_sid
         ∧ encode env (PStr ("Session " +:+ str env token)) = Return enc_auth
         ∧ session h' = Some s'
         ∧ headers s' !! AUTH_KEY = Some enc_auth).
Proof.
  intros Hinv. split; [|split].
  - intros url data method t h' res Hcall.
    unfold call in Hcall. apply try_log_inv in Hcall as (h4 & Hcall & ->).
    bind_step Hcall.
    apply call_with_token_return in Hm as (rq & -> & _).
    destruct (is_session_error consts (status_code a)).
    + bind_step Hcall; prim Hm; simplify_eq.
      destruct (is_logout_call method url); [by prim Hcall; simplify_eq|].
      bind_step Hcall.
      match goal with
      | Htok : get_token _ _ = (_, Return ?b) |- _ => rename Htok into Hg; destruct b
      end.
      * apply get_token_true in Hg
          as (? & ? & ? & ? & tok & ea & s' & _ & _ & _ & _ & _ & _ & He & Hs' & Hh).
        apply call_with_token_return in Hcall as (rq' & -> & _).
        intros s0 a0 Hs Ha. simpl in Hs. rewrite Hs' in Hs. simplify_eq. eauto.
      * apply get_token_false in Hg as [_ ->].
        bind_step Hcall; prim Hm; simplify_eq. prim Hcall; simplify_eq.
        exact Hinv.
    + destruct (status_code a =? 503); prim Hcall; simplify_eq. exact Hinv.
  - intros url data method t h' res Hc.
    apply call_with_token_return in Hc as (rq & -> & _ & _ & _ & _ & _ & Hout).
    split; [done|]. by exists rq.
  - intros h' Htok.
    apply get_token_true in Htok
      as (? & ? & sid & es & tok & ea & s' & _ & _ & _ & ? & ? & _ & ? & ? & ?).
    exists sid, es, tok, ea, s'. done.
Qed.

(** *** Logout *)

(** C8. After a [logout] that returned, a second [logout] returns too and
    hands no request to the transport.  A [logout] that found a session
    id and a [san_address], and returned, has cleared the session id, the
    device id, the model, the serial number and the session handle; and
    any [logout] that returned has either cleared all five or changed
    none of them. *)
Theorem logout_idempotent h h1 :
  logout env consts h = (h1, Return tt) →
  (∃ h2, logout env consts h1 = (h2, Return tt)
         ∧ sends (trace h2) = sends (trace h1))
  ∧ (session_id h ≠ None → truthy (san_address h) = true →
     session_id h1 = None ∧ storage_device_id h1 = PNone
     ∧ device_model h1 = PNone ∧ serial_number h1 = PNone
     ∧ session h1 = None)
  ∧ ((session_id h1 = None ∧ storage_device_id h1 = PNone
      ∧ device_model h1 = PNone ∧ serial_number h1 = PNone
      ∧ session h1 = None)
     ∨ (session_id h1 = session_id h
        ∧ storage_device_id h1 = storage_device_id h
        ∧ device_model h1 = device_model h
        ∧ serial_number h1 = serial_number h
        ∧ session h1 = session h)).
Proof.
  intros H.
  assert (∀ h0, session_id h0 = None →
            ∃ h2, logout env consts h0 = (h2, Return tt)
                  ∧ sends (trace h2) = sends (trace h0)) as Hnone.
  { intros h0 E. eexists. split.
    - unfold logout, bind, get. cbv beta iota. rewrite E. reflexivity.
    - simpl. by rewrite sends_app, app_nil_r. }
  unfold logout, bind, get, lift, ret, modify in H. cbv beta iota in H.
  destruct (session_id h) as [sid|] eqn:Hsid; cbv beta iota in H.
  - destruct (decode env sid) as [plain|e] eqn:Hd; cbv beta iota in H; [|done].
    destruct (truthy (san_address h)) eqn:Hsan; cbv beta iota in H.
    + match type of H with
      | context [call ?x1 ?x2 ?x3 ?x4 ?x5 ?x6 ?x7] =>
          destruct (call x1 x2 x3 x4 x5 x6 x7) as [hc [res|err]] eqn:Hcall
      end; cbv beta iota in H; [|done].
      simplify_eq.
      split; [by apply Hnone|]. split; [done|]. by left.
    + simplify_eq.
      split; [|split; [done|by right]].
      exists h1. split; [|done].
      unfold logout, bind, get, lift, ret. cbv beta iota.
      rewrite Hsid. cbv beta iota. rewrite Hd. cbv beta iota.
      by rewrite Hsan.
  - unfold log_error, emit, modify in H. simplify_eq.
    split; [by apply Hnone|]. split; [done|]. by right.
Qed.

(** *** The configured host is never written *)

Lemma call_with_token_host url data method t h h' r :
  call_with_token env url data method t h = (h', r) →
  rest_host h' = rest_host h.
Proof.
  unfold call_with_token, bind, get, lift, ret, do_call, set_header.
  intros H. destruct h as [ses sid dev model ser san host user pw tr].
  simpl in H.
  repeat (case_step; simpl in *; try done); by pair_inv.
Qed.

Ltac solve_host :=
  repeat match goal with
  | H : call_with_token _ _ _ _ _ _ = _ |- _ => apply call_with_token_host in H
  end;
  simpl in *; congruence.

Lemma get_token_host h h' g :
  get_token env h = (h', g) → rest_host h' = rest_host h.
Proof.
  unfold get_token. intros H.
  apply try_log_inv in H as (h1 & H & ->).
  assert (rest_host h1 = rest_host h) by (repeat mstep; solve_host).
  by destruct g.
Qed.

Lemma call_host url data method t h h' r :
  call env consts url data method t h = (h', r) →
  rest_host h' = rest_host h.
Proof.
  unfold call. intros H.
  apply try_log_inv in H as (h1 & H & ->).
  assert (rest_host h1 = rest_host h).
  { repeat mstep;
      repeat match goal with
      | H : get_token _ _ = _ |- _ => apply get_token_host in H
      end; solve_host. }
  by destruct r.
Qed.

Lemma get_rest_info_host url timeout data h h' r :
  get_rest_info env consts url timeout data h = (h', r) →
  rest_host h' = rest_host h.
Proof.
  unfold get_rest_info, ensure_token. intros H.
  repeat mstep;
    repeat match goal with
    | H : get_token _ _ = _ |- _ => apply get_token_host in H
    | H : call _ _ _ _ _ _ _ = _ |- _ => apply call_host in H
    end; simpl in *; congruence.
Qed.

(** *** Device discovery *)


Lemma scan_systems_no_match systems succeed h :
  Forall (passed_over consts (rest_host h)) systems →
  scan_systems consts systems succeed h
  = (h, Return match systems with [] => succeed | _ :: _ => true end).
Proof.
  intros Hall. revert succeed.
  induction Hall as [|v rest (d' & -> & Hv) _ IH]; intros succeed; simpl; [done|].
  unfold bind at 1, get at 1. unfold system_matches in Hv.
  destruct (py_in_strs _ _); rewrite Hv, IH; by destruct rest.
Qed.


(** When no listed system matches, [get_device_id] resolves nothing and
    still returns true, unless the list is empty. *)
Lemma get_device_id_no_match h h1 body systems :
  get_system_info env consts (prepared env h) = (h1, Return body) →
  py_get "data" body = Return (PList systems) →
  Forall (passed_over consts (rest_host h)) systems →
  ∃ h', get_device_id env consts h
        = (h', Return match systems with [] => false | _ :: _ => true end)
        ∧ storage_device_id h' = storage_device_id h1.
Proof.
  intros Hinfo Hdata Hall.
  assert (rest_host h1 = rest_host h) as Hhost.
  { apply get_rest_info_host in Hinfo. rewrite Hinfo.
    unfold prepared. by destruct (session h). }
  assert (match session h with
          | None => init_http_head env
          | Some _ => ret tt
          end h = (prepared env h, Return tt)) as Hprep.
  { unfold prepared. by destruct (session h). }
  rewrite <- Hhost in Hall.
  pose proof (scan_systems_no_match systems false h1 Hall) as Hscan.
  exists (if is_none (storage_device_id h1) then
            set_trace
              (trace h1 ++ [EvLog "Get device id fail,model or something is wrong"]) h1
          else h1).
  split.
  - unfold get_device_id, try_log.
    unfold bind at 1, get at 1. cbv beta iota.
    rewrite (bind_return _ _ _ _ _ Hprep).
    rewrite (bind_return _ _ _ _ _ Hinfo).
    unfold bind at 1, lift at 1. rewrite Hdata. cbv beta iota.
    unfold bind at 1, lift at 1. simpl py_iter. cbv beta iota.
    rewrite (bind_return _ _ _ _ _ Hscan).
    unfold bind, get, log_error, emit, modify, ret. cbv beta iota.
    by destruct (is_none (storage_device_id h1)).
  - by destruct (is_none (storage_device_id h1)).
Qed.

(** *** The logout guard of [call] *)

(** A DELETE whose URL contains [LOGOUT_URL] and whose response carries a
    session-error code is returned as it is: no [get_token], no retry. *)
Lemma call_logout_guard url data t h h1 res :
  call_with_token env url data "DELETE" t h = (h1, Return res) →
  is_session_error consts (status_code res) = true →
  contains LOGOUT_URL url = true →
  call env consts url data "DELETE" t h = (noted h1, Return res).
Proof.
  intros H1 Herr Hurl. unfold call, try_log.
  rewrite (bind_return _ _ _ _ _ H1), Herr.
  unfold is_logout_call. rewrite Hurl. reflexivity.
Qed.

End VspFacts.

(** *** Reading a resource *)

(** C7 (amended). In the token-exchange variant, when the token check
    passes and [call] returns a response, [get_rest_info] returns the parsed
    JSON body if the status code is 200 and [None] otherwise; a first
    response that is neither 200, nor 503, nor a session error gives [None]
    without an exception.  In the header-credential variant, when the
    transport returns a response, [get_rest_info] returns the [response]
    member of the parsed JSON body if the status code is 200 and [None]
    otherwise.  In the token-exchange variant again, when the token check
    raises, as [get_token] does on any answer other than 200 to its
    request, [get_rest_info] raises the same exception and the resource is
    not requested. *)
Theorem get_rest_info_absent_unless_200 (env : Env) (consts : Vsp.Consts) :
  (∀ url timeout data h h0 h1 res,
     Vsp.ensure_token env url h = (h0, Return tt) →
     Vsp.call env consts url data "GET" timeout h0 = (h1, Return res) →
     Vsp.get_rest_info env consts url timeout data h
     = (h1, if status_code res =? 200 then json res else Return PNone))
  ∧ (∀ url timeout data h h0 h1 res,
       Vsp.ensure_token env url h = (h0, Return tt) →
       Vsp.call_with_token env url data "GET" timeout h0 = (h1, Return res) →
       status_code res ≠ 200 → status_code res ≠ 503 →
       Vsp.is_session_error consts (status_code res) = false →
       Vsp.get_rest_info env consts url timeout data h = (h1, Return PNone))
  ∧ (∀ url data method h h1 res,
       do_call env url data method (default_timeout env) h = (h1, Return res) →
       Vplex.get_rest_info env url data method h
       = (h1, if status_code res =? 200 then
                match json res with
                | Return body => py_get "response" body
                | Raise e => Raise e
                end
              else Return PNone))
  ∧ (∀ url timeout data h h0 e,
       Vsp.ensure_token env url h = (h0, Raise e) →
       Vsp.get_rest_info env consts url timeout data h = (h0, Raise e)).
Proof.
  split; [|split; [|split]].
  - intros url timeout data h h0 h1 res He Hc.
    unfold Vsp.get_rest_info.
    rewrite (bind_return _ _ _ _ _ He), (bind_return _ _ _ _ _ Hc).
    by destruct (status_code res =? 200).
  - intros url timeout data h h0 h1 res He Hc H200 H503 Herr.
    unfold Vsp.get_rest_info.
    rewrite (bind_return _ _ _ _ _ He).
    assert (Vsp.call env consts url data "GET" timeout h0 = (h1, Return res)) as ->%(bind_return _ _ _ _ _).
    { unfold Vsp.call, try_log.
      rewrite (bind_return _ _ _ _ _ Hc), Herr.
      apply Z.eqb_neq in H503. by rewrite H503. }
    apply Z.eqb_neq in H200. by rewrite H200.
  - intros url data method h h1 res Hd.
    unfold Vplex.get_rest_info.
    rewrite (bind_return _ _ _ _ _ Hd).
    destruct (status_code res =? 200); [|done].
    unfold bind, lift. by destruct (json res).
  - intros url timeout data h h0 e He.
    unfold Vsp.get_rest_info. by rewrite (bind_raise _ _ _ _ _ He).
Qed.

(** ** Concrete runs *)

Section Concrete.
Import Demo Runs.

(** C1, as worded, fails: with the session refused and the request for a
    token answered 401, the re-authentication fails and [call] raises
    [BadResponse] instead of returning the 403 response. *)
Lemma call_raises_when_token_refused :
  ¬ claimed_original_response refused demo_consts "/x" PNone "GET" 30 logged_in.
Proof.
  intros H.
  specialize (H (fst (Vsp.call_with_token refused "/x" PNone "GET" 30 logged_in))
                session_invalid).
  assert (snd (Vsp.call refused demo_consts "/x" PNone "GET" 30 logged_in)
          = Raise (BadResponse "unauthorized")) as E by (vm_compute; reflexivity).
  rewrite E in H. discriminate H; try (vm_compute; reflexivity).
  vm_compute. discriminate.
Qed.

Lemma call_session_error_reauth_once_witness :
  let first := Vsp.call_with_token refreshed "/x" PNone "GET" 30 logged_in in
  let token := Vsp.get_token refreshed (noted (fst first)) in
  let whole := Vsp.call refreshed demo_consts "/x" PNone "GET" 30 logged_in in
  snd first = Return session_invalid
  ∧ snd token = Return true
  ∧ token_calls (trace (fst whole)) = 1%nat
  ∧ (length (sends (trace (fst whole))) ≤ 3)%nat
  ∧ ∃ h3, Vsp.call_with_token refreshed "/x" PNone "GET" 30 (fst token)
          = (h3, snd whole)
          ∧ sends (trace (fst whole)) = sends (trace h3)
          ∧ (length (sends (trace h3)) ≤ S (length (sends (trace (fst token)))))%nat.
Proof.
  intros first token whole.
  split; [reflexivity|]. split; [reflexivity|].
  apply (call_session_error_reauth_once refreshed demo_consts "/x" PNone "GET" 30
           logged_in (fst first) session_invalid (fst token) (Return true)
           (fst whole) (snd whole)); vm_compute; reflexivity.
Defined.

(** C2: the DELETE that [logout] issues goes to a URL that does not contain
    [LOGOUT_URL]; when it is answered with a session-invalid code, [call]
    enters [get_token] and sends the DELETE a second time, and returns the
    second response. *)
Theorem logout_delete_is_retried :
  Vsp.is_logout_call "DELETE" session_url = false
  ∧ (let r := Vsp.logout refreshed demo_consts logged_in in
     map (λ rq, (rq_method rq, rq_url rq)) (sends (trace (fst r)))
     = [("DELETE", session_url);
        ("POST", "/ConfigurationManager/v1/objects/storages/800000/sessions");
        ("DELETE", session_url)]
     ∧ token_calls (trace (fst r)) = 1%nat)
  ∧ snd (Vsp.call_with_token refreshed session_url PNone "DELETE" 30 logged_in)
    = Return session_invalid
  ∧ snd (Vsp.call refreshed demo_consts session_url PNone "DELETE" 30 logged_in)
    = Return found.
Proof. vm_compute. repeat split; reflexivity. Qed.

(** C3: with one listed system that does not match the configured host,
    [login] returns true, although no device id is resolved and the
    failure is logged. *)
Theorem login_no_match_returns_true :
  let r := Vsp.login (discovery [PDict system_c]) demo_consts created in
  snd r = Return true
  ∧ storage_device_id (fst r) = PNone
  ∧ last (trace (fst r))
    = Some (EvLog "Get device id fail,model or something is wrong").
Proof. vm_compute. repeat split; reflexivity. Qed.

Lemma call_503_fast_fail_witness :
  let env := demo_env [Return unavailable] in
  ∃ h', Vsp.call env demo_consts "/x" PNone "GET" 30 logged_in
        = (h', Raise (InvalidResults "service unavailable"))
        ∧ token_calls (trace h') = 0%nat
        ∧ length (sends (trace h')) = 1%nat.
Proof.
  intros env.
  apply (call_503_fast_fail env demo_consts "/x" PNone "GET" 30 logged_in
           (fst (Vsp.call_with_token env "/x" PNone "GET" 30 logged_in))
           unavailable); vm_compute; reflexivity.
Defined.

Lemma logged_in_header_encrypted (script : list (outcome Response)) :
  header_encrypted (demo_env script) logged_in.
Proof.
  intros s a Hs Ha. injection Hs as <-.
  exists (PStr "Session tok0").
  change (Some "enc:Session tok0" = Some a) in Ha. by injection Ha as <-.
Qed.

Lemma demo_encode_marks (v : pyval) : demo_encode v ≠ Return "Session tok0".
Proof. destruct v; vm_compute; discriminate. Qed.

Lemma call_raise_breaks_header_encrypted_witness :
  let env := demo_env [Raise (OtherException "connection reset")] in
  header_encrypted env logged_in
  ∧ ∃ h' s', Vsp.call env demo_consts "/x" PNone "GET" 30 logged_in
             = (h', Raise (OtherException "connection reset"))
             ∧ session h' = Some s'
             ∧ headers s' !! Vsp.AUTH_KEY = Some "Session tok0"
             ∧ ¬ header_encrypted env h'.
Proof.
  intros env. split; [apply logged_in_header_encrypted|].
  apply (call_raise_breaks_header_encrypted env demo_consts "/x" PNone "GET" 30
           logged_in (mkSession {[ Vsp.AUTH_KEY := "enc:Session tok0" ]} None)
           "enc:Session tok0" "Session tok0" (OtherException "connection reset"));
    try (vm_compute; reflexivity).
  - apply logged_in_header_encrypted.
  - exact demo_encode_marks.
Defined.

Lemma call_keeps_header_encrypted_witness :
  header_encrypted refreshed
    (fst (Vsp.call refreshed demo_consts "/x" PNone "GET" 30 logged_in)).
Proof.
  apply (proj1 (call_keeps_header_encrypted refreshed demo_consts logged_in
                  (logged_in_header_encrypted _))
           "/x" PNone "GET" 30 _ found).
  vm_compute. reflexivity.
Defined.



(** C7, as worded, fails in both variants.  Header-credential: after a
    [login], on status 200 [get_rest_info] returns the [response] member,
    not the parsed body.  Token-exchange: on a handler that holds no token
    yet, with every request answered 404, [get_rest_info] raises
    [BadResponse] out of [get_token], having sent the request for a token
    only. *)
Lemma get_rest_info_as_worded_fails :
  let env := demo_env [Return found; Return found] in
  let h := fst (Vplex.login env MoreRuns.vplex_auth_url created) in
  let r := Vsp.get_rest_info (demo_env []) demo_consts "/x" 30 PNone MoreRuns.no_token in
  (snd (Vplex.login env MoreRuns.vplex_auth_url created) = Return tt
   ∧ snd (Vplex.get_rest_info env "/vplex/clusters" PNone "GET" h)
     = Return (PStr "x")
   ∧ ¬ claimed_parsed_body env "/vplex/clusters" PNone "GET" h)
  ∧ (snd r = Raise (BadResponse "not found")
     ∧ map (λ rq, (rq_method rq, rq_url rq)) (sends (trace (fst r)))
       = [("POST", "/ConfigurationManager/v1/objects/storages/800000/sessions")]
     ∧ ¬ claimed_absent_on_404 (demo_env []) demo_consts "/x" 30 PNone
           MoreRuns.no_token).
Proof.
  intros env h r.
  split; (split; [vm_compute; reflexivity|]); (split; [vm_compute; reflexivity|]).
  - intros H.
    specialize (H (fst (do_call env "/vplex/clusters" PNone "GET" 30 h)) found).
    assert (snd (Vplex.get_rest_info env "/vplex/clusters" PNone "GET" h)
            = Return (PStr "x")) as E by (vm_compute; reflexivity).
    rewrite E in H.
    assert (Return (PStr "x") = json found) as E'.
    { apply H; vm_compute; reflexivity. }
    vm_compute in E'. discriminate E'.
  - intros H. unfold claimed_absent_on_404 in H.
    assert (snd (Vsp.get_rest_info (demo_env []) demo_consts "/x" 30 PNone
                   MoreRuns.no_token)
            = Raise (BadResponse "not found")) as E by (vm_compute; reflexivity).
    rewrite E in H.
    assert (@Raise pyval (BadResponse "not found") = Return PNone) as E'.
    { apply H. intros history rq. exists not_found. split; [|reflexivity].
      simpl. unfold scripted. by destruct (length history). }
    discriminate E'.
Qed.

Lemma get_rest_info_absent_unless_200_witness :
  let env := demo_env [Return not_found] in
  let env' := demo_env [Return found; Return not_found] in
  let h := fst (Vplex.login env' MoreRuns.vplex_auth_url created) in
  snd (Vsp.get_rest_info env demo_consts "/x" 30 PNone logged_in) = Return PNone
  ∧ snd (Vplex.login env' MoreRuns.vplex_auth_url created) = Return tt
  ∧ snd (Vplex.get_rest_info env' "/vplex/clusters" PNone "GET" h) = Return PNone
  ∧ snd (Vsp.get_rest_info env demo_consts "/x" 30 PNone MoreRuns.no_token)
    = Raise (BadResponse "not found").
Proof.
  intros env env' h.
  destruct (get_rest_info_absent_unless_200 env demo_consts) as (_ & Hvsp & _ & Hraise).
  destruct (get_rest_info_absent_unless_200 env' demo_consts) as (_ & _ & Hvplex & _).
  split; [|split; [vm_compute; reflexivity|split]].
  - assert (Vsp.ensure_token env "/x" logged_in = (logged_in, Return tt)) as He
      by (vm_compute; reflexivity).
    assert (Vsp.call_with_token env "/x" PNone "GET" 30 logged_in
            = (fst (Vsp.call_with_token env "/x" PNone "GET" 30 logged_in),
               Return not_found)) as Hc by (vm_compute; reflexivity).
    assert (status_code not_found ≠ 200) as H200 by (simpl; lia).
    assert (status_code not_found ≠ 503) as H503 by (simpl; lia).
    by rewrite (Hvsp _ _ _ _ _ _ _ He Hc H200 H503 eq_refl).
  - assert (do_call env' "/vplex/clusters" PNone "GET" (default_timeout env') h
            = (fst (do_call env' "/vplex/clusters" PNone "GET" 30 h),
               Return not_found)) as Hd by (vm_compute; reflexivity).
    by rewrite (Hvplex _ _ _ _ _ _ Hd).
  - assert (Vsp.ensure_token env "/x" MoreRuns.no_token
            = (fst (Vsp.ensure_token env "/x" MoreRuns.no_token),
               Raise (BadResponse "not found"))) as He by (vm_compute; reflexivity).
    by rewrite (Hraise _ 30 PNone _ _ _ He).
Defined.

Lemma logout_idempotent_witness :
  let env := demo_env [Return found] in
  let h1 := fst (Vsp.logout env demo_consts logged_in) in
  (∃ h2, Vsp.logout env demo_consts h1 = (h2, Return tt)
         ∧ sends (trace h2) = sends (trace h1))
  ∧ session_id h1 = None ∧ storage_device_id h1 = PNone
  ∧ device_model h1 = PNone ∧ serial_number h1 = PNone
  ∧ session h1 = None.
Proof.
  intros env h1.
  assert (Vsp.logout env demo_consts logged_in = (h1, Return tt)) as Hfirst
    by (vm_compute; reflexivity).
  destruct (logout_idempotent env demo_consts logged_in h1 Hfirst)
    as (Hsecond & Hcleared & _).
  split; [exact Hsecond|]. apply Hcleared; [discriminate|reflexivity].
Defined.

Lemma call_with_token_raise_leaves_plaintext_witness :
  let env := demo_env [Raise (OtherException "connection reset")] in
  ∃ h' s', Vsp.call_with_token env "/x" PNone "GET" 30 logged_in
           = (h', Raise (OtherException "connection reset"))
           ∧ session h' = Some s'
           ∧ headers s' !! Vsp.AUTH_KEY = Some "Session tok0".
Proof.
  intros env.
  apply (call_with_token_raise_leaves_plaintext env demo_consts "/x" PNone "GET" 30
           logged_in (mkSession {[ Vsp.AUTH_KEY := "enc:Session tok0" ]} None)
           "enc:Session tok0" "Session tok0" (OtherException "connection reset"));
    vm_compute; reflexivity.
Defined.

End Concrete.

(** ** Further properties of the VSP handler *)

Section VspMore.
Variable env : Env.
Variable consts : Vsp.Consts.

Import Vsp.

Lemma same_static_refl h : same_static h h.
Proof. by repeat split. Qed.

Lemma same_static_trans h1 h2 h3 :
  same_static h1 h2 → same_static h2 h3 → same_static h1 h3.
Proof. unfold same_static. intros ? ?. intuition congruence. Qed.

Lemma call_with_token_static url data method t h h' r :
  call_with_token env url data method t h = (h', r) → same_static h h'.
Proof.
  unfold call_with_token, bind, get, lift, ret, do_call, set_header, same_static.
  intros H. destruct h as [ses sid dev model ser san host user pw tr].
  simpl in H.
  repeat (case_step; simpl in *; try done); by pair_inv.
Qed.

(** Conclude [same_static] from the [call_with_token], [get_token] and
    [call] facts among the hypotheses. *)
Ltac solve_static get_token_static call_static :=
  repeat match goal with
  | H : call_with_token _ _ _ _ _ _ = _ |- _ => apply call_with_token_static in H
  | H : get_token _ _ = _ |- _ => apply get_token_static in H
  | H : call _ _ _ _ _ _ _ = _ |- _ => apply call_static in H
  end;
  unfold same_static in *; simpl in *; intuition congruence.

Lemma get_token_static h h' g :
  get_token env h = (h', g) → same_static h h'.
Proof.
  unfold get_token. intros H.
  apply try_log_inv in H as (h1 & H & ->).
  assert (same_static h h1)
    by (repeat mstep; solve_static call_with_token_static call_with_token_static).
  destruct g; [done|]. unfold same_static in *; simpl; intuition congruence.
Qed.

Lemma call_static url data method t h h' r :
  call env consts url data method t h = (h', r) → same_static h h'.
Proof.
  unfold call. intros H.
  apply try_log_inv in H as (h1 & H & ->).
  assert (same_static h h1)
    by (repeat mstep; solve_static get_token_static call_with_token_static).
  destruct r; [done|]. unfold same_static in *; simpl; intuition congruence.
Qed.

Lemma get_rest_info_static url timeout data h h' r :
  get_rest_info env consts url timeout data h = (h', r) → same_static h h'.
Proof.
  unfold get_rest_info, ensure_token. intros H.
  repeat mstep; solve_static get_token_static call_static.
Qed.

(** *** Requesting a token *)

(** All of a successful [get_token]: one POST to the session URL of the
    device, answered 200 with a JSON object; the password decoded into
    [auth]; the encoded session id and header stored. *)
Lemma get_token_granted h h' :
  get_token env h = (h', Return true) →
  ∃ password rq res body sid enc_sid token enc_auth s0,
    decode env (rest_password h) = Return password
    ∧ trace h' = trace h ++ [EvGetToken; EvSend rq]
    ∧ rq_url rq = COMM_URL +:+ "/" +:+ str env (storage_device_id h) +:+ "/sessions"
    ∧ rq_method rq = "POST" ∧ rq_data rq = PDict [] ∧ rq_timeout rq = 30
    ∧ transport env (sends (trace h)) rq = Return res
    ∧ status_code res = 200 ∧ json res = Return body
    ∧ py_get "sessionId" body = Return sid ∧ encode env sid = Return enc_sid
    ∧ py_get "token" body = Return token
    ∧ encode env (PStr ("Session " +:+ str env token)) = Return enc_auth
    ∧ session_id h' = Some enc_sid
    ∧ session h' = Some (mkSession (<[AUTH_KEY := enc_auth]> (headers s0))
                                   (Some (rest_username h, password)))
    ∧ match session h with Some s => s0 = s | None => s0 = fresh_session env end.
Proof.
  unfold get_token. intros H.
  apply try_log_inv in H as (h1 & H & ->).
  repeat mstep.
  all: match goal with
       | Hc : call_with_token _ _ _ _ _ _ = (_, Return ?res) |- _ =>
           apply call_with_token_return in Hc
             as (rq & -> & Htr & Hurl & Hdata & Hmeth & Ht & _);
           simpl in Htr; rewrite sends_app, app_nil_r in Htr
       end.
  all: simplify_eq/=.
  all: match goal with
       | Hj : json ?res = Return ?body,
         Hsid : py_get "sessionId" ?body = Return ?sid,
         He : encode env ?sid = Return ?es,
         Ht : py_get "token" ?body = Return ?tok,
         Ha : encode env (PStr (_ +:+ str env ?tok)) = Return ?ea,
         Hd : decode env _ = Return ?pw |- _ =>
           exists pw, rq, res, body, sid, es, tok, ea
       end.
  all: eexists; rewrite <- app_assoc; repeat split; try done; try lia.
Qed.

(** X1. [get_token] returns false exactly when no [san_address] is
    configured, and then it has handed nothing to the transport and has
    left the session and the session id as they were: a refused token is
    never reported by a false result. *)
Theorem get_token_false_iff_no_address h :
  ((∃ h', get_token env h = (h', Return false))
   ↔ truthy (san_address h) = false)
  ∧ ∀ h', get_token env h = (h', Return false) →
          sends (trace h') = sends (trace h)
          ∧ session h' = session h ∧ session_id h' = session_id h.
Proof.
  split; [split|].
  - intros (h' & H). by apply get_token_false in H as [? _].
  - intros Hsan. destruct h. eexists.
    unfold get_token, try_log, bind, emit, modify, get, log_error, ret.
    simpl in *. rewrite Hsan. reflexivity.
  - intros h' H. apply get_token_false in H as [_ ->]. simpl.
    by rewrite sends_app, app_nil_r.
Qed.

(** X2. When the session-creation POST of [get_token] is answered with a
    status other than 200, [get_token] raises: [InvalidUsernameOrPassword]
    if the text contains "authentication failed", else
    [StorageBackendException] if it contains "KART30005-E", else
    [BadResponse]; the session id and the session, cached header included,
    are as they were when the POST was sent. *)
Theorem get_token_refused h password h1 res h' r :
  truthy (san_address h) = true →
  decode env (rest_password h) = Return password →
  call_with_token env
    (COMM_URL +:+ "/" +:+ str env (storage_device_id h) +:+ "/sessions")
    (PDict []) "POST" 30 (authenticating env h password) = (h1, Return res) →
  status_code res ≠ 200 →
  get_token env h = (h', r) →
  r = Raise (if contains "authentication failed" (text res) then
               InvalidUsernameOrPassword
             else if contains "KART30005-E" (text res) then
               StorageBackendException (text res)
             else BadResponse (text res))
  ∧ session_id h' = session_id h
  ∧ session h' = session (authenticating env h password).
Proof.
  intros Hsan Hpw Hc Hst Hg.
  apply Z.eqb_neq in Hst.
  pose proof (call_with_token_return _ _ _ _ _ _ _ _ Hc) as (rq & Hh1 & _).
  unfold get_token in Hg. apply try_log_inv in Hg as (h2 & Hg & ->).
  repeat mstep.
  all: repeat match goal with
       | Hd : decode env ?x = Return ?a, Hd' : decode env ?x = Return ?b |- _ =>
           rewrite Hd in Hd'; simplify_eq
       end.
  all: try match goal with
       | Hc0 : call_with_token _ _ _ _ _ (authenticating ?e ?hh ?pw) = _,
         Hc' : call_with_token _ _ _ _ _ (set_session ?a ?b) = _ |- _ =>
           let E := fresh "E" in
           assert (authenticating e hh pw = set_session a b) as E
             by (unfold authenticating, bind, emit, modify, init_http_head, ret,
                   set_auth; simpl;
                 repeat (match goal with
                         | Hs : session _ = _ |- _ => rewrite Hs
                         end; simpl);
                 reflexivity);
           rewrite E in Hc0; rewrite Hc0 in Hc'; simplify_eq
       end.
  all: try congruence.
  all: simpl; repeat split; try done.
  all: try (by rewrite E).
  all: repeat match goal with
       | Hb : contains _ _ = _ |- _ => rewrite Hb; clear Hb
       end; done.
Qed.

(** X3. A [get_token] that returns true has left the decoded password,
    with the user name, in the [auth] attribute of the session. *)
Theorem get_token_keeps_plain_password h h' :
  get_token env h = (h', Return true) →
  ∃ s' password,
    decode env (rest_password h) = Return password
    ∧ session h' = Some s'
    ∧ auth s' = Some (rest_username h, password).
Proof.
  intros H.
  apply get_token_granted in H
    as (pw & rq & res & body & sid & es & token & ea & s0 & Hpw
        & _ & _ & _ & _ & _ & _ & _ & _ & _ & _ & _ & _ & _ & Hs & _).
  eexists _, pw. by rewrite Hs.
Qed.



(** *** The resource getters *)

Lemma resource_url_not_root x y :
  String.eqb ((COMM_URL +:+ "/" +:+ x) +:+ y) COMM_URL = false.
Proof. reflexivity. Qed.

Lemma device_url_not_root h : String.eqb (device_url env h) COMM_URL = false.
Proof. reflexivity. Qed.

(** With a session that has no [Authorization] header, [get_rest_info] on
    a URL other than [COMM_URL] asks for a token first, and stops there
    when that raises. *)
Lemma get_rest_info_token_raise url timeout data h s h1 e :
  session h = Some s →
  headers s !! AUTH_KEY = None →
  String.eqb url COMM_URL = false →
  get_token env h = (h1, Raise e) →
  get_rest_info env consts url timeout data h = (h1, Raise e).
Proof.
  intros Hs Hh Hurl Htok.
  assert (ensure_token env url h = (h1, Raise e)) as He.
  { unfold ensure_token. unfold bind at 1, get at 1. cbv beta iota.
    rewrite Hs, Hurl. cbv beta iota delta [negb]. rewrite Hh. cbv beta iota.
    by rewrite (bind_raise _ _ _ _ _ Htok). }
  unfold get_rest_info. by rewrite (bind_raise _ _ _ _ _ He).
Qed.

(** X5. On a handler whose session has no cached [Authorization] header,
    every resource getter asks for a token before it asks for the
    resource; when [get_token] raises, the getter raises the same
    exception and the resource is not requested. *)
Theorem getters_stop_when_token_refused h s h1 e :
  session h = Some s →
  headers s !! AUTH_KEY = None →
  get_token env h = (h1, Raise e) →
  get_firmware_version env consts h = (h1, Raise e)
  ∧ get_capacity env consts h = (h1, Raise e)
  ∧ get_all_pools env consts h = (h1, Raise e)
  ∧ (∀ head_id max_number,
       get_volumes env consts head_id max_number h = (h1, Raise e))
  ∧ get_controllers env consts h = (h1, Raise e)
  ∧ get_disks env consts h = (h1, Raise e)
  ∧ get_all_ports env consts h = (h1, Raise e)
  ∧ (∀ port_id, get_detail_ports env consts port_id h = (h1, Raise e)).
Proof.
  intros Hs Hh Htok.
  assert (∀ url, String.eqb url COMM_URL = false →
                 get_rest_info env consts url (SOCKET_TIMEOUT consts) PNone h
                 = (h1, Raise e)) as Hstop
    by (intros; by eapply get_rest_info_token_raise).
  unfold get_firmware_version, get_capacity, get_all_pools, get_volumes,
    get_controllers, get_disks, get_all_ports, get_detail_ports.
  repeat split; intros; unfold bind at 1, get at 1; cbv beta iota zeta.
  1: by rewrite (bind_raise _ _ _ _ _ (Hstop _ (device_url_not_root h))).
  all: by apply Hstop.
Qed.

(** X6. [get_firmware_version] returns [None] when [get_rest_info] gives
    [None] (a response that is not 200, or a JSON [null]), the
    [dkcMicroVersion] member of a JSON object ([None] when the key is
    missing), and raises [AttributeError] for any other JSON value. *)
Theorem get_firmware_version_result h h1 body :
  get_rest_info env consts (device_url env h) (SOCKET_TIMEOUT consts) PNone h
  = (h1, Return body) →
  get_firmware_version env consts h
  = (h1, match body with
         | PNone => Return PNone
         | PDict d => Return (dict_lookup "dkcMicroVersion" d)
         | _ => Raise (AttributeError "get")
         end).
Proof.
  intros H. unfold get_firmware_version.
  unfold bind at 1, get at 1. cbv beta iota zeta.
  rewrite (bind_return _ _ _ _ _ H). by destruct body.
Qed.

(** *** Logout, when it fails *)

Lemma call_with_token_session_id url data method t h h' r :
  call_with_token env url data method t h = (h', r) →
  session_id h' = session_id h.
Proof.
  unfold call_with_token, bind, get, lift, ret, do_call, set_header.
  intros H. destruct h as [ses sid dev model ser san host user pw tr].
  simpl in H.
  repeat (case_step; simpl in *; try done); by pair_inv.
Qed.

Lemma get_token_session_id h h' g :
  get_token env h = (h', g) →
  is_Some (session_id h) → is_Some (session_id h').
Proof.
  unfold get_token. intros H Hsid.
  apply try_log_inv in H as (h1 & H & ->).
  assert (is_Some (session_id h1)).
  { repeat mstep;
      repeat match goal with
      | Hc : call_with_token _ _ _ _ _ _ = _ |- _ =>
          apply call_with_token_session_id in Hc
      end; simpl in *; try done; congruence. }
  by destruct g.
Qed.

Lemma call_session_id url data method t h h' r :
  call env consts url data method t h = (h', r) →
  is_Some (session_id h) → is_Some (session_id h').
Proof.
  unfold call. intros H Hsid.
  apply try_log_inv in H as (h1 & H & ->).
  assert (is_Some (session_id h1)).
  { repeat mstep;
      repeat match goal with
      | Hc : call_with_token _ _ _ _ _ _ = _ |- _ =>
          apply call_with_token_session_id in Hc
      | Hg : get_token _ _ = _ |- _ =>
          apply get_token_session_id in Hg; [|simpl in *; congruence]
      end; simpl in *; try done; congruence. }
  by destruct r.
Qed.

(** X7. Whatever goes wrong in [logout], the exception that comes out is
    a [StorageBackendException] built with the keyword argument
    [reason='Failed to Logout from restful']; it can only happen with a
    session id present, and then nothing is cleared: a session id is still
    present and the device identity is as it was. *)
Theorem logout_failure_is_wrapped h h' e :
  logout env consts h = (h', Raise e) →
  e = StorageBackendException_reason "Failed to Logout from restful"
  ∧ is_Some (session_id h)
  ∧ is_Some (session_id h')
  ∧ same_static h h'.
Proof.
  intros H.
  unfold logout, bind, get, lift, ret, modify in H. cbv beta iota in H.
  destruct (session_id h) as [sid|] eqn:Hsid; cbv beta iota in H.
  - destruct (decode env sid) as [plain|e0] eqn:Hd; cbv beta iota in H.
    + destruct (truthy (san_address h)) eqn:Hsan; cbv beta iota in H; [|done].
      match type of H with
      | context [call ?x1 ?x2 ?x3 ?x4 ?x5 ?x6 ?x7] =>
          destruct (call x1 x2 x3 x4 x5 x6 x7) as [hc [res|err]] eqn:Hcall
      end; cbv beta iota in H; [done|].
      simplify_eq.
      pose proof (call_static _ _ _ _ _ _ _ Hcall) as Hst.
      apply call_session_id in Hcall; [|by rewrite Hsid].
      repeat split; try done; simpl; apply Hst.
    + simplify_eq. repeat split; try done; simpl; by rewrite Hsid.
  - unfold log_error, emit, modify in H. simplify_eq.
Qed.

(** *** Discovery, where it does not find a system *)

Local Open Scope py_scope.

(** [get_device_id] from the answer of the discovery endpoint on. *)
Lemma get_device_id_after_info h h1 body :
  get_system_info env consts (prepared env h) = (h1, Return body) →
  get_device_id env consts h
  = try_log "Get device id error: %s"
      (system_info <- lift (py_get "data" body) ;;
       systems <- lift (py_iter system_info) ;;
       succeed <- scan_systems consts systems false ;;
       h' <- get ;;
       (if is_none (storage_device_id h') then
          log_error "Get device id fail,model or something is wrong"
        else ret tt) ;;;
       ret succeed) h1.
Proof.
  intros Hinfo.
  assert (match session h with
          | None => init_http_head env
          | Some _ => ret tt
          end h = (prepared env h, Return tt)) as Hprep.
  { unfold prepared. by destruct (session h). }
  unfold get_device_id, try_log.
  unfold bind at 1, get at 1. cbv beta iota.
  rewrite (bind_return _ _ _ _ _ Hprep).
  by rewrite (bind_return _ _ _ _ _ Hinfo).
Qed.

Lemma prepared_static h : same_static h (prepared env h).
Proof. unfold prepared. destruct (session h); by repeat split. Qed.

Lemma scan_systems_bad_entry pre v post succeed h :
  Forall (passed_over consts (rest_host h)) pre →
  (∀ d, v ≠ PDict d) →
  scan_systems consts (pre ++ v :: post) succeed h
  = (h, Raise (AttributeError "get")).
Proof.
  intros Hpre Hv. revert succeed.
  induction Hpre as [|w pre (d' & -> & Hw) _ IH]; intros succeed; simpl.
  - unfold bind at 1, get at 1. destruct v; try done. by destruct (Hv d).
  - unfold bind at 1, get at 1. unfold system_matches in Hw.
    destruct (py_in_strs _ _); rewrite Hw; apply IH.
Qed.

(** The loop writes the identity at most once, from a listed system that
    matches, and then its result is true. *)
Lemma scan_systems_inv systems succeed h h' r :
  scan_systems consts systems succeed h = (h', r) →
  h' = h
  ∨ ∃ d, PDict d ∈ systems
         ∧ system_matches consts (rest_host h) d = true
         ∧ r = Return true
         ∧ h' = set_identity (dict_lookup "storageDeviceId" d)
                  (dict_lookup "model" d) (dict_lookup "serialNumber" d) h.
Proof.
  revert succeed. induction systems as [|v rest IH]; intros succeed; simpl.
  - unfold ret. intros; simplify_eq. by left.
  - unfold bind at 1, get at 1.
    destruct v as [| | | | |d]; try (unfold raise; intros; simplify_eq; by left).
    unfold system_matches in *.
    destruct (py_in_strs (dict_lookup "model" d) _) eqn:Hm.
    + destruct (py_eq_str (dict_lookup "ctl1Ip" d) (rest_host h)
                || py_eq_str (dict_lookup "ctl2Ip" d) (rest_host h)) eqn:Hc.
      * unfold bind, adopt, modify, ret. intros; simplify_eq. right.
        exists d. rewrite Hm, Hc. repeat split; [left|..]; done.
      * intros H. apply IH in H as [->|(d' & Hin & ? & ? & ?)]; [by left|].
        right. exists d'. repeat split; [by right|..]; done.
    + destruct (py_eq_str (dict_lookup "svpIp" d) (rest_host h)) eqn:Hc.
      * unfold bind, adopt, modify, ret. intros; simplify_eq. right.
        exists d. rewrite Hm, Hc. repeat split; [left|..]; done.
      * intros H. apply IH in H as [->|(d' & Hin & ? & ? & ?)]; [by left|].
        right. exists d'. repeat split; [by right|..]; done.
Qed.

(** X8. When the discovery answer is not a JSON object (as when the
    endpoint answers with a status other than 200 and [get_system_info]
    gives [None]), [login] raises [AttributeError]; when it is an object
    whose [data] member is missing or not iterable, [login] raises
    [TypeError].  Neither case is reported by a false result, and the
    device identity stays as it was. *)
Theorem login_malformed_discovery h h1 body :
  get_system_info env consts (prepared env h) = (h1, Return body) →
  match body with
  | PDict d =>
      match dict_lookup "data" d with
      | PNone | PBool _ | PInt _ => True
      | _ => False
      end
  | _ => True
  end →
  ∃ h', login env consts h
        = (h', Raise match body with
                     | PDict _ => TypeError "object is not iterable"
                     | _ => AttributeError "get"
                     end)
        ∧ same_static h h'.
Proof.
  intros Hinfo Hbody.
  pose proof (same_static_trans _ _ _ (prepared_static h)
                (get_rest_info_static _ _ _ _ _ _ Hinfo)) as Hst.
  unfold login, try_log at 1.
  rewrite (get_device_id_after_info _ _ _ Hinfo).
  unfold try_log, bind, lift.
  destruct body as [| | | | |d]; simpl;
    try (eexists; split; [reflexivity|];
         unfold same_static in *; simpl; intuition congruence).
  destruct (dict_lookup "data" d); simpl; try done;
    eexists; (split; [reflexivity|]);
    unfold same_static in *; simpl; intuition congruence.
Qed.

(** X9. When every listed system is an object that does not match,
    [login] returns true if the list is not empty and false if it is
    empty, and the device identity stays as it was. *)
Theorem login_no_match h h1 body systems :
  get_system_info env consts (prepared env h) = (h1, Return body) →
  py_get "data" body = Return (PList systems) →
  Forall (passed_over consts (rest_host h)) systems →
  ∃ h', login env consts h
        = (h', Return match systems with [] => false | _ :: _ => true end)
        ∧ same_static h h'.
Proof.
  intros Hinfo Hdata Hall.
  pose proof (same_static_trans _ _ _ (prepared_static h)
                (get_rest_info_static _ _ _ _ _ _ Hinfo)) as Hst.
  assert (rest_host h1 = rest_host h) as Hhost by apply Hst.
  rewrite <- Hhost in Hall.
  pose proof (scan_systems_no_match _ systems false h1 Hall) as Hscan.
  unfold login, try_log at 1.
  rewrite (get_device_id_after_info _ _ _ Hinfo).
  unfold try_log. unfold bind at 1, lift at 1. rewrite Hdata. cbv beta iota.
  unfold bind at 1, lift at 1. simpl py_iter. cbv beta iota.
  rewrite (bind_return _ _ _ _ _ Hscan).
  unfold bind, get, log_error, emit, modify, ret. cbv beta iota.
  destruct (is_none (storage_device_id h1)); eexists; (split; [reflexivity|]);
    unfold same_static in *; simpl; intuition congruence.
Qed.

(** X10. When the listed systems before the first matching one include a
    value that is not an object, [login] raises [AttributeError] and the
    device identity stays as it was, whatever follows in the list. *)
Theorem login_bad_entry h h1 body pre v post :
  get_system_info env consts (prepared env h) = (h1, Return body) →
  py_get "data" body = Return (PList (pre ++ v :: post)) →
  Forall (passed_over consts (rest_host h)) pre →
  (∀ d, v ≠ PDict d) →
  ∃ h', login env consts h = (h', Raise (AttributeError "get"))
        ∧ same_static h h'.
Proof.
  intros Hinfo Hdata Hpre Hv.
  pose proof (same_static_trans _ _ _ (prepared_static h)
                (get_rest_info_static _ _ _ _ _ _ Hinfo)) as Hst.
  assert (rest_host h1 = rest_host h) as Hhost by apply Hst.
  rewrite <- Hhost in Hpre.
  pose proof (scan_systems_bad_entry pre v post false h1 Hpre Hv) as Hscan.
  unfold login, try_log at 1.
  rewrite (get_device_id_after_info _ _ _ Hinfo).
  unfold try_log. unfold bind at 1, lift at 1. rewrite Hdata. cbv beta iota.
  unfold bind at 1, lift at 1. simpl py_iter. cbv beta iota.
  rewrite (bind_raise _ _ _ _ _ Hscan).
  eexists; split; [reflexivity|].
  unfold same_static in *; simpl; intuition congruence.
Qed.

Lemma get_device_id_info_raise h h1 e :
  get_system_info env consts (prepared env h) = (h1, Raise e) →
  get_device_id env consts h
  = (set_trace (trace h1 ++ [EvLog "Get device id error: %s"]) h1, Raise e).
Proof.
  intros Hinfo.
  assert (match session h with
          | None => init_http_head env
          | Some _ => ret tt
          end h = (prepared env h, Return tt)) as Hprep.
  { unfold prepared. by destruct (session h). }
  unfold get_device_id, try_log.
  unfold bind at 1, get at 1. cbv beta iota.
  rewrite (bind_return _ _ _ _ _ Hprep).
  by rewrite (bind_raise _ _ _ _ _ Hinfo).
Qed.

(** X11. Whatever its outcome, [get_device_id] either leaves the device
    id, the model and the serial number as they were, or has taken all
    three from one system that is listed in the [data] of the discovery
    answer and matches the configured host, and then it returns true. *)
Theorem get_device_id_identity h h' r :
  get_device_id env consts h = (h', r) →
  (storage_device_id h' = storage_device_id h
   ∧ device_model h' = device_model h
   ∧ serial_number h' = serial_number h)
  ∨ ∃ h1 body system_info systems d,
      get_system_info env consts (prepared env h) = (h1, Return body)
      ∧ py_get "data" body = Return system_info
      ∧ py_iter system_info = Return systems
      ∧ PDict d ∈ systems
      ∧ system_matches consts (rest_host h) d = true
      ∧ identity_of d h'
      ∧ r = Return true.
Proof.
  intros H.
  destruct (get_system_info env consts (prepared env h)) as [h1 [body|e]] eqn:Hinfo.
  - pose proof (same_static_trans _ _ _ (prepared_static h)
                  (get_rest_info_static _ _ _ _ _ _ Hinfo)) as Hst.
    assert (rest_host h1 = rest_host h) as Hhost by apply Hst.
    rewrite (get_device_id_after_info _ _ _ Hinfo) in H.
    apply try_log_inv in H as (h2 & H & ->).
    assert ((storage_device_id h2 = storage_device_id h1
             ∧ device_model h2 = device_model h1
             ∧ serial_number h2 = serial_number h1)
            ∨ ∃ system_info systems d,
                py_get "data" body = Return system_info
                ∧ py_iter system_info = Return systems
                ∧ PDict d ∈ systems
                ∧ system_matches consts (rest_host h1) d = true
                ∧ identity_of d h2
                ∧ r = Return true) as Hmain.
    { repeat mstep.
      all: try match goal with
           | Hs : scan_systems _ _ _ _ = _ |- _ =>
               apply scan_systems_inv in Hs as [->|(d & Hin & Hd & ? & ->)]
           end.
      all: simplify_eq/=.
      all: try (by left).
      all: right; do 2 eexists; exists d; unfold identity_of; simpl.
      all: repeat split; try eassumption; done. }
    destruct Hmain as [Hsame|(si & sys & d & ? & ? & ? & Hd & Hid & ->)].
    + left. unfold same_static in Hst.
      destruct r; simpl; intuition congruence.
    + right. exists h1, body, si, sys, d. rewrite <- Hhost.
      repeat split; try done; apply Hid.
  - rewrite (get_device_id_info_raise _ _ _ Hinfo) in H. simplify_eq.
    left. simpl.
    pose proof (same_static_trans _ _ _ (prepared_static h)
                  (get_rest_info_static _ _ _ _ _ _ Hinfo)) as Hst.
    unfold same_static in Hst. intuition congruence.
Qed.

(** *** The logout guard and the URL of [logout] *)










(** *** A first read *)



End VspMore.

(** ** Further properties of the VPLEX handler *)

Section VplexFacts.
Variable env : Env.
Variable REST_AUTH_URL : string.
Variable BASE_CONTEXT : string.

Lemma vplex_login_session h password h' r :
  decode env (rest_password h) = Return password →
  Vplex.login env REST_AUTH_URL h = (h', r) →
  session h' = Some (credentialed env h password).
Proof.
  intros Hpw H. unfold Vplex.login in H.
  apply try_log_inv in H as (h1 & H & ->).
  assert (session h1 = Some (credentialed env h password)) as Hmain.
  { unfold bind, init_http_head, modify, get, lift, set_header, do_call,
      log_error, emit, modify, raise, ret in H.
    simpl in H. rewrite Hpw in H. simpl in H.
    destruct (transport env _ _) as [res|e]; simpl in H; [|by simplify_eq].
    destruct (status_code res =? 200); simpl in H;
      [|destruct (contains _ _)]; by simplify_eq. }
  by destruct r.
Qed.

(** X13. Once the password decodes, [login] replaces the session by a new
    one whose headers hold the user name and the decoded password, and
    hands the transport exactly one request, a GET of the authentication
    URL with that session; the credentials stay in the headers whether
    the probe succeeds or not. *)
Theorem vplex_login_leaves_credentials h password h' r :
  decode env (rest_password h) = Return password →
  Vplex.login env REST_AUTH_URL h = (h', r) →
  session h' = Some (credentialed env h password)
  ∧ ∃ rq, sends (trace h') = sends (trace h) ++ [rq]
          ∧ rq_url rq = REST_AUTH_URL ∧ rq_method rq = "GET"
          ∧ rq_data rq = PDict []
          ∧ rq_session rq = Some (credentialed env h password).
Proof.
  intros Hpw H. unfold Vplex.login in H.
  apply try_log_inv in H as (h1 & H & ->).
  assert (session h1 = Some (credentialed env h password)
          ∧ ∃ rq, sends (trace h1) = sends (trace h) ++ [rq]
                  ∧ rq_url rq = REST_AUTH_URL ∧ rq_method rq = "GET"
                  ∧ rq_data rq = PDict []
                  ∧ rq_session rq = Some (credentialed env h password)) as Hmain.
  { unfold bind, init_http_head, modify, get, lift, set_header, do_call,
      log_error, emit, modify, raise, ret in H.
    simpl in H. rewrite Hpw in H. simpl in H.
    destruct (transport env _ _) as [res|e]; simpl in H.
    - destruct (status_code res =? 200); simpl in H;
        [|destruct (contains _ _)]; simplify_eq; simpl;
        rewrite ?sends_app, ?app_nil_r; simpl; eauto 10.
    - simplify_eq; simpl. rewrite sends_app. simpl. eauto 10. }
  destruct r; [done|]. simpl.
  by rewrite sends_app, app_nil_r.
Qed.


(** X14. [login] returns only when the probe is answered 200.  For any
    other answer it raises [InvalidUsernameOrPassword] if the text contains
    "User authentication failed" and [StorageBackendException] with the
    text otherwise; an exception of the transport comes out as it is. *)
Theorem vplex_login_outcome h password :
  decode env (rest_password h) = Return password →
  snd (Vplex.login env REST_AUTH_URL h)
  = match transport env (sends (trace h))
            (mkRequest REST_AUTH_URL (PDict []) "GET" (default_timeout env)
                       (Some (credentialed env h password))) with
    | Return res =>
        if status_code res =? 200 then Return tt
        else if contains "User authentication failed" (text res) then
               Raise InvalidUsernameOrPassword
             else Raise (StorageBackendException (text res))
    | Raise e => Raise e
    end.
Proof.
  intros Hpw.
  unfold Vplex.login, try_log, bind, init_http_head, modify, get, lift,
    set_header, do_call, log_error, emit, modify, raise, ret.
  unfold credentialed. simpl. rewrite Hpw. simpl.
  destruct (transport env _ _) as [res|e]; simpl; [|done].
  destruct (status_code res =? 200); simpl; [done|].
  by destruct (contains _ _).
Qed.

(** Whatever the answer, [get_rest_info] hands the transport exactly one
    request, with the session as it is, and changes nothing of the handler
    but the events. *)
Lemma vplex_get_rest_info_frame url data method h h' r :
  Vplex.get_rest_info env url data method h = (h', r) →
  h' = set_trace
         (trace h ++ [EvSend (mkRequest url data method (default_timeout env)
                                        (session h))]) h.
Proof.
  unfold Vplex.get_rest_info, bind, do_call, lift, ret. intros H.
  destruct (transport env _ _) as [res|e]; simpl in H; [|by simplify_eq].
  destruct (status_code res =? 200); simpl in H; [|by simplify_eq].
  destruct (json res); simpl in H; by simplify_eq.
Qed.

(** X15. After a [login] that returned, every [get_rest_info] sends the
    user name and the decoded password as headers, and leaves them in
    place for the next one. *)
Theorem vplex_credentials_resent url data method h password h1 h2 r :
  decode env (rest_password h) = Return password →
  Vplex.login env REST_AUTH_URL h = (h1, Return tt) →
  Vplex.get_rest_info env url data method h1 = (h2, r) →
  session h2 = session h1
  ∧ ∃ rq s, sends (trace h2) = sends (trace h1) ++ [rq]
            ∧ rq_session rq = Some s
            ∧ headers s !! "username" = Some (rest_username h)
            ∧ headers s !! "password" = Some password.
Proof.
  intros Hpw Hlogin Hget.
  apply (vplex_login_session _ _ _ _ Hpw) in Hlogin as Hs.
  apply vplex_get_rest_info_frame in Hget as ->. simpl.
  split; [done|]. eexists _, _. rewrite sends_app. simpl.
  split; [done|]. split; [exact Hs|].
  unfold credentialed; simpl. split.
  - by rewrite lookup_insert_ne, lookup_insert_eq.
  - by rewrite lookup_insert_eq.
Qed.

Lemma prefix_append base rest : String.prefix base (base +:+ rest) = true.
Proof.
  induction base as [|a base IH]; [by destruct rest|].
  change (String a base +:+ rest) with (String a (base +:+ rest)).
  change (String.prefix (String a base) (String a (base +:+ rest)))
    with (if Ascii.ascii_dec a a then String.prefix base (base +:+ rest)
          else false).
  by destruct (Ascii.ascii_dec a a).
Qed.

Lemma vplex_get_rest_info_single base url data method :
  String.prefix base url = true →
  single_read env base (Vplex.get_rest_info env url data method).
Proof.
  intros Hp h h' r s Hs H.
  exists (mkRequest url data method (default_timeout env) (session h)).
  split; [by eapply vplex_get_rest_info_frame|].
  split; [exact Hs|]. split; [done|].
  unfold Vplex.get_rest_info, bind, do_call, lift, ret in H.
  destruct (transport env _ _) as [res|e]; simpl in H; [|by simplify_eq].
  destruct (status_code res =? 200); simpl in H; [|by simplify_eq].
  destruct (json res); simpl in H; by simplify_eq.
Qed.

(** X16. On a handler that holds a session, each of the fourteen resource
    getters is one read under [BASE_CONTEXT]: one request with the session
    as it is, nothing else of the handler changed.  For any answer other
    than 200 the result is [None] without an exception; for an answer 200
    it is the [response] member of a JSON object, [AttributeError] for a
    JSON body that is not an object, the decoding error for a body that is
    not JSON; an exception of the transport comes out as it is. *)
Theorem vplex_getters_single_read :
  (∀ c v, single_read env BASE_CONTEXT
            (Vplex.get_virtual_volume_by_name_resp env BASE_CONTEXT c v))
  ∧ (∀ c, single_read env BASE_CONTEXT
            (Vplex.get_virtual_volume_resp env BASE_CONTEXT c))
  ∧ single_read env BASE_CONTEXT (Vplex.get_cluster_resp env BASE_CONTEXT)
  ∧ (∀ c, single_read env BASE_CONTEXT
            (Vplex.get_devcie_resp env BASE_CONTEXT c))
  ∧ (∀ c d, single_read env BASE_CONTEXT
              (Vplex.get_device_by_name_resp env BASE_CONTEXT c d))
  ∧ single_read env BASE_CONTEXT (Vplex.get_health_check_resp env BASE_CONTEXT)
  ∧ (∀ c, single_read env BASE_CONTEXT
            (Vplex.get_cluster_by_name_resp env BASE_CONTEXT c))
  ∧ (∀ c, single_read env BASE_CONTEXT
            (Vplex.get_storage_volume_summary_resp env BASE_CONTEXT c))
  ∧ (∀ c, single_read env BASE_CONTEXT
            (Vplex.get_device_summary_resp env BASE_CONTEXT c))
  ∧ (∀ c, single_read env BASE_CONTEXT
            (Vplex.get_virtual_volume_summary_resp env BASE_CONTEXT c))
  ∧ single_read env BASE_CONTEXT (Vplex.get_engine_director_resp env BASE_CONTEXT)
  ∧ single_read env BASE_CONTEXT (Vplex.get_version_verbose env BASE_CONTEXT)
  ∧ single_read env BASE_CONTEXT
      (Vplex.get_cluster_export_port_resp env BASE_CONTEXT)
  ∧ single_read env BASE_CONTEXT
      (Vplex.get_engine_director_hardware_port_resp env BASE_CONTEXT).
Proof.
  repeat split; intros; apply vplex_get_rest_info_single, prefix_append.
Qed.

End VplexFacts.

(** ** Further concrete runs *)

Section MoreConcrete.
Import Demo Runs MoreRuns.


Lemma get_token_refused_witness :
  let env := demo_env [Return wrong_password] in
  snd (Vsp.get_token env logged_in) = Raise InvalidUsernameOrPassword
  ∧ session_id (fst (Vsp.get_token env logged_in)) = Some "enc:sid0".
Proof.
  intros env.
  destruct (get_token_refused env logged_in "secret"
              (fst (Vsp.call_with_token env
                      "/ConfigurationManager/v1/objects/storages/800000/sessions"
                      (PDict []) "POST" 30 (authenticating env logged_in "secret")))
              wrong_password
              (fst (Vsp.get_token env logged_in))
              (snd (Vsp.get_token env logged_in)))
    as (Hr & Hsid & _).
  - reflexivity.
  - reflexivity.
  - vm_compute. reflexivity.
  - simpl. lia.
  - by destruct (Vsp.get_token env logged_in).
  - split; [exact Hr|exact Hsid].
Defined.

Lemma get_token_keeps_plain_password_witness :
  let env := demo_env [Return token_granted] in
  ∃ s' password,
    decode env (rest_password logged_in) = Return password
    ∧ session (fst (Vsp.get_token env logged_in)) = Some s'
    ∧ auth s' = Some (rest_username logged_in, password).
Proof.
  intros env.
  apply (get_token_keeps_plain_password env logged_in).
  vm_compute. reflexivity.
Defined.


Lemma getters_stop_when_token_refused_witness :
  let env := demo_env [Return token_refused] in
  snd (Vsp.get_all_pools env demo_consts no_token)
  = Raise (BadResponse "unauthorized")
  ∧ length (sends (trace (fst (Vsp.get_all_pools env demo_consts no_token))))
    = 1%nat.
Proof.
  intros env.
  destruct (getters_stop_when_token_refused env demo_consts no_token
              (mkSession {[ "Content-Type" := "application/json" ]} None)
              (fst (Vsp.get_token env no_token))
              (BadResponse "unauthorized"))
    as (_ & _ & Hpools & _).
  - reflexivity.
  - reflexivity.
  - vm_compute. reflexivity.
  - rewrite Hpools. vm_compute. split; reflexivity.
Defined.

Lemma get_firmware_version_result_witness :
  let env := demo_env [Return firmware] in
  snd (Vsp.get_firmware_version env demo_consts logged_in)
  = Return (PStr "88-08-01").
Proof.
  intros env.
  rewrite (get_firmware_version_result env demo_consts logged_in
             (fst (Vsp.get_rest_info env demo_consts
                     (Vsp.device_url env logged_in) 30 PNone logged_in))
             (PDict [("dkcMicroVersion", PStr "88-08-01")])).
  - reflexivity.
  - vm_compute. reflexivity.
Defined.

Lemma logout_failure_is_wrapped_witness :
  let env := demo_env [Raise connection_reset] in
  snd (Vsp.logout env demo_consts logged_in)
  = Raise (StorageBackendException_reason "Failed to Logout from restful")
  ∧ is_Some (session_id (fst (Vsp.logout env demo_consts logged_in))).
Proof.
  intros env.
  destruct (logout_failure_is_wrapped env demo_consts logged_in
              (fst (Vsp.logout env demo_consts logged_in))
              (StorageBackendException_reason "Failed to Logout from restful"))
    as (_ & _ & Hsid & _).
  - vm_compute. reflexivity.
  - split; [vm_compute; reflexivity|exact Hsid].
Defined.

Lemma login_malformed_discovery_witness :
  let env := demo_env [Return not_found] in
  ∃ h', Vsp.login env demo_consts created = (h', Raise (AttributeError "get"))
        ∧ same_static created h'.
Proof.
  intros env.
  apply (login_malformed_discovery env demo_consts created
           (fst (Vsp.get_system_info env demo_consts (prepared env created)))
           PNone).
  - vm_compute. reflexivity.
  - exact I.
Defined.

Lemma login_no_match_witness :
  let env := discovery [PDict system_c] in
  ∃ h', Vsp.login env demo_consts created = (h', Return true)
        ∧ same_static created h'.
Proof.
  intros env.
  apply (login_no_match env demo_consts created
           (fst (Vsp.get_system_info env demo_consts (prepared env created)))
           (PDict [("data", PList [PDict system_c])]) [PDict system_c]).
  - vm_compute. reflexivity.
  - reflexivity.
  - constructor; [|constructor]. exists system_c. split; reflexivity.
Defined.

Lemma login_bad_entry_witness :
  let env := discovery [PDict system_c; PStr "junk"; PDict system_d] in
  ∃ h', Vsp.login env demo_consts created = (h', Raise (AttributeError "get"))
        ∧ same_static created h'.
Proof.
  intros env.
  apply (login_bad_entry env demo_consts created
           (fst (Vsp.get_system_info env demo_consts (prepared env created)))
           (PDict [("data", PList [PDict system_c; PStr "junk"; PDict system_d])])
           [PDict system_c] (PStr "junk") [PDict system_d]).
  - vm_compute. reflexivity.
  - reflexivity.
  - constructor; [|constructor]. exists system_c. split; reflexivity.
  - discriminate.
Defined.

Lemma get_device_id_identity_witness :
  let systems := [PDict system_c; PDict system_d] in
  let env := discovery systems in
  let h' := fst (Vsp.get_device_id env demo_consts created) in
  ∃ d, PDict d ∈ systems
       ∧ system_matches demo_consts (rest_host created) d = true
       ∧ identity_of d h'
       ∧ storage_device_id h' = PStr "D"
       ∧ snd (Vsp.get_device_id env demo_consts created) = Return true.
Proof.
  intros systems env h'.
  destruct (get_device_id_identity env demo_consts created h'
              (snd (Vsp.get_device_id env demo_consts created))
              (surjective_pairing _))
    as [(Hsame & _)|(h1 & body & si & sys & d & Hinfo & Hdata & Hiter & Hin & Hm & Hid & Hr)].
  - vm_compute in Hsame. discriminate Hsame.
  - assert (Vsp.get_system_info env demo_consts (prepared env created)
            = (fst (Vsp.get_system_info env demo_consts (prepared env created)),
               Return (PDict [("data", PList systems)]))) as Hrun
      by (vm_compute; reflexivity).
    rewrite Hrun in Hinfo. injection Hinfo as _ <-.
    injection Hdata as <-. injection Hiter as <-.
    exists d. split; [exact Hin|]. split; [exact Hm|]. split; [exact Hid|].
    split; [vm_compute; reflexivity | exact Hr].
Defined.



Lemma vplex_login_leaves_credentials_witness :
  let env := demo_env [Return vplex_denied] in
  let h' := fst (Vplex.login env vplex_auth_url created) in
  session h' = Some (credentialed env created "secret")
  ∧ ∃ rq, sends (trace h') = sends (trace created) ++ [rq]
          ∧ rq_url rq = vplex_auth_url ∧ rq_method rq = "GET"
          ∧ rq_data rq = PDict []
          ∧ rq_session rq = Some (credentialed env created "secret").
Proof.
  intros env h'.
  apply (vplex_login_leaves_credentials env vplex_auth_url created "secret" h'
           (snd (Vplex.login env vplex_auth_url created))).
  - reflexivity.
  - unfold h'. by destruct (Vplex.login env vplex_auth_url created).
Defined.

Lemma vplex_login_outcome_witness :
  snd (Vplex.login (demo_env [Return vplex_denied]) vplex_auth_url created)
  = Raise InvalidUsernameOrPassword.
Proof.
  rewrite (vplex_login_outcome (demo_env [Return vplex_denied]) vplex_auth_url
             created "secret"); reflexivity.
Defined.

Lemma vplex_credentials_resent_witness :
  let env := demo_env [Return found; Return not_found] in
  let h1 := fst (Vplex.login env vplex_auth_url created) in
  let h2 := fst (Vplex.get_cluster_resp env vplex_base h1) in
  session h2 = session h1
  ∧ ∃ rq s, sends (trace h2) = sends (trace h1) ++ [rq]
            ∧ rq_session rq = Some s
            ∧ headers s !! "username" = Some "admin"
            ∧ headers s !! "password" = Some "secret".
Proof.
  intros env h1 h2.
  apply (vplex_credentials_resent env vplex_auth_url "/vplex/clusters" PNone "GET"
           created "secret" h1 h2
           (snd (Vplex.get_cluster_resp env vplex_base h1))).
  - reflexivity.
  - vm_compute. reflexivity.
  - exact (surjective_pairing (Vplex.get_cluster_resp env vplex_base h1)).
Defined.

Lemma get_token_false_iff_no_address_witness :
  let env := demo_env [Return token_granted] in
  (∃ h', Vsp.get_token env no_address = (h', Return false))
  ∧ sends (trace (fst (Vsp.get_token env no_address))) = [].
Proof.
  intros env.
  destruct (get_token_false_iff_no_address env no_address) as [[_ Hex] Hquiet].
  split; [by apply Hex|].
  apply (Hquiet (fst (Vsp.get_token env no_address))).
  vm_compute. reflexivity.
Defined.

Lemma vplex_getters_single_read_witness :
  let env := demo_env [Return found; Return not_found] in
  let env' := demo_env [Return found; Return (mkResponse 200 "ok" (Some (PList [])))] in
  let h1 := fst (Vplex.login env vplex_auth_url created) in
  let h1' := fst (Vplex.login env' vplex_auth_url created) in
  (snd (Vplex.login env vplex_auth_url created) = Return tt
   ∧ ∃ rq, fst (Vplex.get_cluster_resp env vplex_base h1)
           = set_trace (trace h1 ++ [EvSend rq]) h1
           ∧ rq_session rq = Some (credentialed env created "secret")
           ∧ String.prefix vplex_base (rq_url rq) = true
           ∧ snd (Vplex.get_cluster_resp env vplex_base h1) = Return PNone)
  ∧ (snd (Vplex.login env' vplex_auth_url created) = Return tt
     ∧ snd (Vplex.get_cluster_resp env' vplex_base h1')
       = Raise (AttributeError "get")).
Proof.
  intros env env' h1 h1'.
  split; split; try (vm_compute; reflexivity).
  destruct (vplex_getters_single_read env vplex_base) as (_ & _ & Hcluster & _).
  destruct (Hcluster h1
              (fst (Vplex.get_cluster_resp env vplex_base h1))
              (snd (Vplex.get_cluster_resp env vplex_base h1))
              (credentialed env created "secret"))
    as (rq & Hh & Hs & Hp & Hr).
  - vm_compute. reflexivity.
  - exact (surjective_pairing _).
  - exists rq. split; [exact Hh|]. split; [exact Hs|]. split; [exact Hp|].
    vm_compute. reflexivity.
Defined.

End MoreConcrete.
